(** * kml_polygon_to_convex_hull: a shallow embedding

    The program reads the features of a KML layer through OGR, turns the
    outer rings of POLYGON and MULTIPOLYGON geometries into Shapely
    geometries, repairs and unions the polygons, takes the convex hull of
    the union and writes it to a new KML file.

    Conventions of the embedding:
    - a Python float is modelled by the rational number it denotes;
    - the console, the geometry operations that are performed and the calls
      to the OGR writer are recorded, in program order, in a trace;
    - a raised exception ends the run and is returned next to the trace;
    - the geometry kernel (validity test, zero-distance buffer, union,
      hull, WKT) and the OGR file layer are interfaces: the program is
      verified against every implementation of them. *)

From Stdlib Require Import List String Ascii Bool Arith Lia QArith Lqa.
From Stdlib Require Import Permutation.
From Stdlib Require DecimalString.
Import ListNotations.
Local Close Scope Q_scope.
Local Open Scope nat_scope.
Local Open Scope string_scope.
Local Open Scope list_scope.
Set Warnings "-register-all".

(** ** Exceptions *)

Inductive exn : Type :=
| ValueError (msg : string)
| AttributeError      (* a method call on None *)
| TypeError.          (* iteration over None *)

(** ** OGR geometries

    An OGR geometry has a name, points (for rings) and sub-geometries
    (rings of a polygon, polygons of a multipolygon). [GetPoint] returns
    an (x, y, z) triple. *)

Definition OGRPoint : Type := (Q * Q * Q)%type.

Inductive OGRGeometry : Type :=
| OGRGeom (name : string) (points : list OGRPoint) (subs : list OGRGeometry).

Definition GetGeometryName (g : OGRGeometry) : string :=
  match g with OGRGeom n _ _ => n end.

Definition GetPointCount (g : OGRGeometry) : nat :=
  match g with OGRGeom _ ps _ => List.length ps end.

Definition GetPoint (g : OGRGeometry) (i : nat) : OGRPoint :=
  match g with OGRGeom _ ps _ => nth i ps (0, 0, 0)%Q end.

Definition GetGeometryCount (g : OGRGeometry) : nat :=
  match g with OGRGeom _ _ ss => List.length ss end.

(** [GetGeometryRef i] is None when there is no sub-geometry [i]. *)
Definition GetGeometryRef (g : OGRGeometry) (i : nat) : option OGRGeometry :=
  match g with OGRGeom _ _ ss => nth_error ss i end.

Record Feature : Type := mkFeature {
  FieldName : option string;            (* feature.GetField("Name") *)
  FeatureGeometry : option OGRGeometry  (* feature.GetGeometryRef() *)
}.

Record DataSource : Type := mkDataSource {
  GetLayer : option (list Feature)
}.

(** ** Shapely geometries *)

Definition coord : Type := (Q * Q)%type.

Inductive Geometry : Type :=
| Polygon (shell : list coord) (holes : list (list coord))
| MultiPolygon (geoms : list Geometry)
| LineString (coords : list coord)
| Point (coords : list coord)
| GeometryCollection (geoms : list Geometry).

(** [isinstance(g, Polygon)] *)
Definition isinstance_Polygon (g : Geometry) : bool :=
  match g with Polygon _ _ => true | _ => false end.

(** [g.is_empty]: the geometry has no coordinates at all. *)
Fixpoint is_empty (g : Geometry) : bool :=
  match g with
  | Polygon shell _ => match shell with [] => true | _ => false end
  | LineString cs | Point cs => match cs with [] => true | _ => false end
  | MultiPolygon gs | GeometryCollection gs =>
      (fix all (l : list Geometry) : bool :=
         match l with
         | [] => true
         | x :: r => is_empty x && all r
         end) gs
  end.

(** Equality of two coordinates, as the library compares them. *)
Definition coord_eqb (a b : coord) : bool :=
  Qeq_bool (fst a) (fst b) && Qeq_bool (snd a) (snd b).

(** The linear ring Shapely builds from a shell: the first coordinate is
    repeated at the end when the shell has exactly three coordinates, or
    when its last coordinate differs from its first. *)
Definition close_ring (coords : list coord) : list coord :=
  match coords with
  | [] => []
  | first :: _ =>
      if Nat.eqb (List.length coords) 3
         || negb (coord_eqb first (last coords first))
      then coords ++ [first]
      else coords
  end.

(** [Polygon(coords)]: an empty shell gives the empty polygon; a shell of
    one or two coordinates is refused with a ValueError (the closed ring
    would have fewer than four coordinates); three or more coordinates
    are accepted and the polygon holds the closed ring. *)
Definition linearring_error : string :=
  "A linearring requires at least 4 coordinates.".

Definition new_Polygon (coords : list coord) : exn + Geometry :=
  match List.length coords with
  | 1 | 2 => inl (ValueError linearring_error)
  | _ => inr (Polygon (close_ring coords) [])
  end.

(** [MultiPolygon(polygons)]: the constructor leaves out the members that
    are empty. *)
Definition new_MultiPolygon (polygons : list Geometry) : Geometry :=
  MultiPolygon (filter (fun p => negb (is_empty p)) polygons).

(** ** The two library interfaces *)

Class Shapely : Type := {
  is_valid : Geometry -> bool;                 (* g.is_valid *)
  buffer0 : Geometry -> Geometry;              (* g.buffer(0) *)
  unary_union : list Geometry -> Geometry;     (* shapely.ops.unary_union *)
  convex_hull : Geometry -> Geometry;          (* g.convex_hull *)
  wkt : Geometry -> string                     (* g.wkt *)
}.

Class Ogr : Type := {
  (* driver.Open(path, 0): None when the file cannot be opened *)
  Open : string -> option DataSource;
  (* driver.CreateDataSource(path) is not None *)
  CreateDataSource : string -> bool;
  (* datasource.CreateLayer(name, geom_type=ogr.wkbPolygon) is not None *)
  CreateLayer : string -> string -> bool;
  (* ogr.CreateGeometryFromWkt(text): None when the text is refused *)
  CreateGeometryFromWkt : string -> option OGRGeometry;
  (* os.path.splitext(path)[0] *)
  splitext_root : string -> string
}.

(** ** Events and the run monad *)

Inductive event : Type :=
| Print (line : string)
| CallBuffer0 (g : Geometry)
| CallUnaryUnion (gs : list Geometry)
| CallConvexHull (g : Geometry)
| DoCreateDataSource (path : string)
| DoCreateLayer (path name : string)
| DoCreateFeature (path : string) (g : OGRGeometry).

Definition M (A : Type) : Type := (list event * (exn + A))%type.

Definition ret {A} (a : A) : M A := ([], inr a).

Definition bind {A B} (m : M A) (k : A -> M B) : M B :=
  match m with
  | (t, inl e) => (t, inl e)
  | (t, inr a) => let (t', r) := k a in (t ++ t', r)
  end.

Definition raise {A} (e : exn) : M A := ([], inl e).
Definition emit (e : event) : M unit := ([e], inr tt).
Definition print (s : string) : M unit := emit (Print s).
Definition lift {A} (r : exn + A) : M A := ([], r).

Declare Scope run_scope.
Delimit Scope run_scope with run.
Notation "x <- m ;; k" := (bind m (fun x => k))
  (at level 61, m at next level, right associativity) : run_scope.
Notation "m ;;; k" := (bind m (fun _ => k))
  (at level 61, right associativity) : run_scope.
Local Open Scope run_scope.

Definition trace_of {A} (m : M A) : list event := fst m.
Definition result_of {A} (m : M A) : exn + A := snd m.

(** [for x in xs: acc = body(acc, x)] *)
Fixpoint for_each {A S} (xs : list A) (body : S -> A -> M S) (acc : S) : M S :=
  match xs with
  | [] => ret acc
  | x :: r => acc' <- body acc x ;; for_each r body acc'
  end.

(** [[f(x) for x in xs if cond(x)]] *)
Fixpoint comprehension {A B} (cond : A -> bool) (f : A -> M B) (xs : list A)
  : M (list B) :=
  match xs with
  | [] => ret []
  | x :: r =>
      if cond x then
        y <- f x ;; ys <- comprehension cond f r ;; ret (y :: ys)
      else comprehension cond f r
  end.

(** ** Text *)

Definition nl : string := String (ascii_of_nat 10) EmptyString.

Definition str_of_nat (n : nat) : string :=
  DecimalString.NilEmpty.string_of_uint (Nat.to_uint n).

(** [s or "Unnamed Feature"]: None and the empty string are falsy. *)
Definition name_or_default (s : option string) : string :=
  match s with
  | None | Some EmptyString => "Unnamed Feature"
  | Some n => n
  end.

(** ** extract_polygons_from_kml *)

(** [[(r.GetPoint(i)[0], r.GetPoint(i)[1]) for i in range(r.GetPointCount())]] *)
Definition ring_coords (ring : OGRGeometry) : list coord :=
  map (fun i => (fst (fst (GetPoint ring i)), snd (fst (GetPoint ring i))))
      (seq 0 (GetPointCount ring)).

Definition extract_polygon (geom : OGRGeometry) (polygons : list Geometry)
  : M (list Geometry) :=
  match GetGeometryRef geom 0 with
  | Some exterior_ring =>
      shapely_geom <- lift (new_Polygon (ring_coords exterior_ring)) ;;
      ret (polygons ++ [shapely_geom])
  | None => ret polygons
  end.

Definition extract_sub_polygon (geom : OGRGeometry)
    (multipolygons : list Geometry) (i : nat) : M (list Geometry) :=
  match GetGeometryRef geom i with
  | None => raise AttributeError
  | Some part =>
      match GetGeometryRef part 0 with
      | Some sub_geom =>
          p <- lift (new_Polygon (ring_coords sub_geom)) ;;
          ret (multipolygons ++ [p])
      | None => ret multipolygons
      end
  end.

Definition extract_multipolygon (geom : OGRGeometry) (polygons : list Geometry)
  : M (list Geometry) :=
  multipolygons <-
    for_each (seq 0 (GetGeometryCount geom)) (extract_sub_polygon geom) [] ;;
  ret (polygons ++ [new_MultiPolygon multipolygons]).

Definition extract_feature (polygons : list Geometry) (feature : Feature)
  : M (list Geometry) :=
  match FeatureGeometry feature with
  | None => ret polygons
  | Some geom =>
      let geom_type := GetGeometryName geom in
      let feature_name := name_or_default (FieldName feature) in
      print (" - Name: " ++ feature_name ++ ", Geometry Type: " ++ geom_type)%string ;;;
      if String.eqb geom_type "POLYGON" then extract_polygon geom polygons
      else if String.eqb geom_type "MULTIPOLYGON"
           then extract_multipolygon geom polygons
           else ret polygons
  end.

Section Program.
Context {shapely : Shapely} {ogr : Ogr}.

Definition extract_polygons_from_kml (input_kml : string) : M (list Geometry) :=
  match Open input_kml with
  | None => raise (ValueError "Failed to open the KML file.")
  | Some datasource =>
      match GetLayer datasource with
      | None => print (nl ++ "Extracted Features:")%string ;;; raise TypeError
      | Some layer =>
          print (nl ++ "Extracted Features:")%string ;;;
          polygons <- for_each layer extract_feature [] ;;
          print (nl ++ "Extracted " ++ str_of_nat (List.length polygons)
                    ++ " polygons.")%string ;;;
          ret polygons
      end
  end.

(** ** validate_and_fix_polygon *)

Definition validate_and_fix_polygon (polygon : Geometry) : M Geometry :=
  if negb (is_valid polygon) then
    print "Invalid geometry detected. Attempting to fix..." ;;;
    emit (CallBuffer0 polygon) ;;;
    ret (buffer0 polygon)
  else ret polygon.

(** ** create_convex_hull *)

Definition is_nil {A} (l : list A) : bool :=
  match l with [] => true | _ => false end.

Definition keep (poly : Geometry) : bool :=
  isinstance_Polygon poly && negb (is_empty poly).

Definition write_hull (input_kml : string) (hull : Geometry) : M unit :=
  let output_kml := (splitext_root input_kml ++ "_convex_hull.kml")%string in
  emit (DoCreateDataSource output_kml) ;;;
  if negb (CreateDataSource output_kml) then raise AttributeError else
  emit (DoCreateLayer output_kml "Convex_Hull") ;;;
  if negb (CreateLayer output_kml "Convex_Hull") then raise AttributeError else
  match CreateGeometryFromWkt (wkt hull) with
  | None => print "Failed to create convex hull geometry!"
  | Some hull_geom =>
      emit (DoCreateFeature output_kml hull_geom) ;;;
      print (nl ++ "Convex hull KML saved to: " ++ output_kml)%string
  end.

Definition create_convex_hull (input_kml : string) : M unit :=
  polygons <- extract_polygons_from_kml input_kml ;;
  if is_nil polygons then
    print (nl ++ "No valid polygons found in the KML file.")%string ;;;
    raise (ValueError "No polygons found to create a convex hull.")
  else
    valid_polygons <- comprehension keep validate_and_fix_polygon polygons ;;
    if is_nil valid_polygons then
      print "No valid polygons found after validation."
    else
      emit (CallUnaryUnion valid_polygons) ;;;
      let combined := unary_union valid_polygons in
      emit (CallConvexHull combined) ;;;
      let hull := convex_hull combined in
      if is_empty hull then
        print "Error: Convex hull calculation resulted in an empty geometry."
      else
        print (nl ++ "Convex Hull successfully created.")%string ;;;
        write_hull input_kml hull.

End Program.

(** ** Notions used in the statements *)

(** The (x, y) part of an OGR point. *)
Definition xy (p : OGRPoint) : coord := (fst (fst p), snd (fst p)).

Definition points_of (ring : OGRGeometry) : list OGRPoint :=
  match ring with OGRGeom _ ps _ => ps end.

Definition is_print (e : event) : bool :=
  match e with Print _ => true | _ => false end.

Definition printed (e : event) : Prop := is_print e = true.

(** Events of the OGR writer: the output file exists from the first one on. *)
Definition is_writer_event (e : event) : bool :=
  match e with
  | DoCreateDataSource _ | DoCreateLayer _ _ | DoCreateFeature _ _ => true
  | _ => false
  end.

(** The value and the trace of [validate_and_fix_polygon]. *)
Definition fixed {shapely : Shapely} (p : Geometry) : Geometry :=
  if is_valid p then p else buffer0 p.

Definition fix_trace {shapely : Shapely} (p : Geometry) : list event :=
  if is_valid p then []
  else [Print "Invalid geometry detected. Attempting to fix...";
        CallBuffer0 p].

(** A MULTIPOLYGON feature none of whose parts has an outer ring. *)
Definition ringless_multipolygon (f : Feature) : Prop :=
  exists pts parts,
    FeatureGeometry f = Some (OGRGeom "MULTIPOLYGON" pts parts) /\
    forall part, In part parts -> GetGeometryRef part 0 = None.

(** ** Planar semantics of the geometry kernel

    A geometry denotes a set of points of the plane. The convex hull of a
    set is the least convex set that contains it. *)

Definition region_t : Type := coord -> Prop.

Definition coord_eq (a b : coord) : Prop :=
  (fst a == fst b)%Q /\ (snd a == snd b)%Q.

(** The point at parameter [t] on the segment from [a] to [b]. *)
Definition between (t : Q) (a b : coord) : coord :=
  ((1 - t) * fst a + t * fst b, (1 - t) * snd a + t * snd b)%Q.

Definition convex (C : region_t) : Prop :=
  (forall a b, coord_eq a b -> C a -> C b) /\
  (forall a b t, (0 <= t)%Q -> (t <= 1)%Q -> C a -> C b -> C (between t a b)).

Definition subset (A B : region_t) : Prop := forall x, A x -> B x.
Definition same_region (A B : region_t) : Prop := forall x, A x <-> B x.

Definition convex_closure (A : region_t) : region_t :=
  fun x => forall C, convex C -> subset A C -> C x.

Definition vertex_set (vs : list coord) : region_t := fun v => In v vs.

(** What the documentation of the kernel promises, for a reading [region]
    of geometries as point sets:
    - an empty geometry has no point;
    - a valid polygon contains its vertices and lies in their convex hull;
    - the union of a single valid geometry covers the same points;
    - [convex_hull] covers exactly the convex hull of its argument. *)
Record PlanarSemantics (shapely : Shapely) (region : Geometry -> region_t)
  : Prop := {
  empty_region : forall g x, is_empty g = true -> ~ region g x;
  polygon_region : forall shell holes,
      is_valid (Polygon shell holes) = true ->
      subset (vertex_set shell) (region (Polygon shell holes)) /\
      subset (region (Polygon shell holes)) (convex_closure (vertex_set shell));
  union_single : forall g,
      is_valid g = true -> same_region (region (unary_union [g])) (region g);
  hull_region : forall g,
      same_region (region (convex_hull g)) (convex_closure (region g))
}.


(** ** A small kernel and file layer for concrete runs

    The kernel below decides validity of a polygon by the area of its shell
    (a shell of area zero is invalid and its zero-distance buffer is empty),
    keeps a union as the collection of its arguments and returns as hull the
    polygon spanned by all vertices of its argument. *)

Fixpoint vertices (g : Geometry) : list coord :=
  match g with
  | Polygon shell _ => shell
  | LineString cs | Point cs => cs
  | MultiPolygon gs | GeometryCollection gs =>
      (fix go (l : list Geometry) : list coord :=
         match l with
         | [] => []
         | x :: r => vertices x ++ go r
         end) gs
  end.

(** Twice the signed area of the ring through [ps], closed back to [first]. *)
Fixpoint shoelace (first : coord) (ps : list coord) : Q :=
  match ps with
  | [] => 0%Q
  | [a] => (fst a * snd first - fst first * snd a)%Q
  | a :: (b :: _) as r =>
      (fst a * snd b - fst b * snd a + shoelace first r)%Q
  end.

Definition twice_area (shell : list coord) : Q :=
  match shell with
  | [] => 0%Q
  | a :: _ => shoelace a shell
  end.

Definition area_valid (g : Geometry) : bool :=
  match g with
  | Polygon [] _ => true
  | Polygon shell _ => negb (Qeq_bool (twice_area shell) 0)
  | _ => true
  end.

Definition area_kernel : Shapely := {|
  is_valid := area_valid;
  buffer0 := fun g => if area_valid g then g else Polygon [] [];
  unary_union := fun gs => GeometryCollection gs;
  convex_hull := fun g => Polygon (vertices g) [];
  wkt := fun _ => "POLYGON"
|}.

Definition area_region (g : Geometry) : region_t :=
  convex_closure (vertex_set (vertices g)).


(** A file layer whose only file holds [layer]; [wkt_ok] tells whether
    [CreateGeometryFromWkt] accepts the text it is given. *)
Definition one_file (layer : list Feature) (wkt_ok : bool) : Ogr := {|
  Open := fun _ => Some (mkDataSource (Some layer));
  CreateDataSource := fun _ => true;
  CreateLayer := fun _ _ => true;
  CreateGeometryFromWkt :=
    fun s => if wkt_ok then Some (OGRGeom s [] []) else None;
  splitext_root := fun _ => "shapes"
|}.

Definition ring_of (ps : list OGRPoint) : OGRGeometry :=
  OGRGeom "LINEARRING" ps [].

Definition polygon_of (ps : list OGRPoint) : OGRGeometry :=
  OGRGeom "POLYGON" [] [ring_of ps].

Definition square_points : list OGRPoint :=
  [(0, 0, 0); (1, 0, 0); (1, 1, 0); (0, 1, 0); (0, 0, 0)]%Q.

Definition triangle_points : list OGRPoint :=
  [(0, 0, 0); (1, 0, 0); (1, 1, 0)]%Q.

Definition collinear_points : list OGRPoint :=
  [(0, 0, 0); (1, 1, 0); (2, 2, 0)]%Q.

Definition triangle_feature : Feature :=
  mkFeature (Some "Triangle") (Some (polygon_of triangle_points)).

Definition square_feature : Feature :=
  mkFeature (Some "Square") (Some (polygon_of square_points)).

Definition collinear_feature : Feature :=
  mkFeature (Some "Sliver") (Some (polygon_of collinear_points)).

Definition short_ring_feature : Feature :=
  mkFeature None (Some (polygon_of [(0, 0, 0)%Q])).

Definition multipolygon_feature : Feature :=
  mkFeature (Some "Islands")
    (Some (OGRGeom "MULTIPOLYGON" [] [polygon_of square_points])).

Definition ringless_feature : Feature :=
  mkFeature None (Some (OGRGeom "MULTIPOLYGON" [] [OGRGeom "POLYGON" [] []])).

(** ** Notions for the feature loop, the writer and the entry point *)

Definition header_line : string := (nl ++ "Extracted Features:")%string.

Definition count_line (n : nat) : string :=
  (nl ++ "Extracted " ++ str_of_nat n ++ " polygons.")%string.

Definition has_geometry (f : Feature) : bool :=
  match FeatureGeometry f with Some _ => true | None => false end.

(** The console line of a feature that has a geometry. *)
Definition feature_line (f : Feature) : string :=
  match FeatureGeometry f with
  | Some geom =>
      (" - Name: " ++ name_or_default (FieldName f)
         ++ ", Geometry Type: " ++ GetGeometryName geom)%string
  | None => EmptyString
  end.

Definition geometry_named (n : string) (f : Feature) : bool :=
  match FeatureGeometry f with
  | Some geom => String.eqb (GetGeometryName geom) n
  | None => false
  end.

(** Features the loop looks into: POLYGON and MULTIPOLYGON. *)
Definition polygonal (f : Feature) : bool :=
  geometry_named "POLYGON" f || geometry_named "MULTIPOLYGON" f.

(** Features that add an entry to the collection: a POLYGON that has an
    outer ring, and every MULTIPOLYGON. *)
Definition contributes (f : Feature) : bool :=
  match FeatureGeometry f with
  | Some geom =>
      if String.eqb (GetGeometryName geom) "POLYGON" then
        match GetGeometryRef geom 0 with Some _ => true | None => false end
      else String.eqb (GetGeometryName geom) "MULTIPOLYGON"
  | None => false
  end.

Definition ring_polygon (ring : OGRGeometry) : Geometry :=
  Polygon (close_ring (map xy (points_of ring))) [].

Definition acceptable_ring (ring : OGRGeometry) : Prop :=
  GetPointCount ring = 0 \/ 3 <= GetPointCount ring.

Definition short_ring (ring : OGRGeometry) : Prop :=
  GetPointCount ring = 1 \/ GetPointCount ring = 2.

(** The polygon a part of a MULTIPOLYGON gives: none without outer ring. *)
Definition part_polygons (part : OGRGeometry) : list Geometry :=
  match GetGeometryRef part 0 with
  | Some ring => [ring_polygon ring]
  | None => []
  end.

(** A POLYGON feature whose outer ring is present and acceptable. *)
Definition plain_polygon (f : Feature) : Prop :=
  exists geom ring,
    FeatureGeometry f = Some geom /\
    GetGeometryName geom = "POLYGON" /\
    GetGeometryRef geom 0 = Some ring /\
    acceptable_ring ring.

Definition feature_polygon (f : Feature) : Geometry :=
  match FeatureGeometry f with
  | Some geom =>
      match GetGeometryRef geom 0 with
      | Some ring => ring_polygon ring
      | None => Polygon [] []
      end
  | None => Polygon [] []
  end.

(** A feature with a ring of one or two points: the outer ring of a
    POLYGON, or the outer ring of a part of a MULTIPOLYGON. *)
Definition has_short_ring (f : Feature) : Prop :=
  exists geom,
    FeatureGeometry f = Some geom /\
    ((GetGeometryName geom = "POLYGON" /\
      exists ring, GetGeometryRef geom 0 = Some ring /\ short_ring ring) \/
     (GetGeometryName geom = "MULTIPOLYGON" /\
      exists i part ring,
        GetGeometryRef geom i = Some part /\
        GetGeometryRef part 0 = Some ring /\ short_ring ring)).

Definition is_buffer_event (e : event) : bool :=
  match e with CallBuffer0 _ => true | _ => false end.

Definition is_geometry_call (e : event) : bool :=
  match e with CallUnaryUnion _ | CallConvexHull _ => true | _ => false end.

Definition output_path {ogr : Ogr} (input_kml : string) : string :=
  (splitext_root input_kml ++ "_convex_hull.kml")%string.

(** The hull the run computes from an extracted collection. *)
Definition hull_of {shapely : Shapely} (polygons : list Geometry) : Geometry :=
  convex_hull (unary_union (map fixed (filter keep polygons))).

Definition saved_prefix : string :=
  (nl ++ "Convex hull KML saved to: ")%string.

(** The event is the closing line "Convex hull KML saved to: ...". *)
Definition is_saved_line (e : event) : bool :=
  match e with
  | Print s => String.prefix saved_prefix s
  | _ => false
  end.

(** ** The entry point

    [input(...)] shows the prompt and returns the line typed, or raises
    EOFError at end of input; the line is stripped and tested with
    [os.path.exists]. Exceptions of the pipeline are not caught. *)

Class Os : Type := {
  typed_line : option string;     (* None: end of input *)
  strip : string -> string;       (* str.strip() *)
  path_exists : string -> bool    (* os.path.exists *)
}.

Inductive main_exn : Type :=
| EOFError
| Uncaught (e : exn).

Inductive main_event : Type :=
| Prompt (text : string)
| Ran (e : event).

Definition main {shapely : Shapely} {ogr : Ogr} {os : Os}
  : list main_event * (main_exn + unit) :=
  match typed_line with
  | None => ([Prompt "Enter the path to the input KML file: "], inl EOFError)
  | Some line =>
      let input_kml_path := strip line in
      if path_exists input_kml_path then
        (Prompt "Enter the path to the input KML file: "
           :: map Ran (trace_of (create_convex_hull input_kml_path)),
         match result_of (create_convex_hull input_kml_path) with
         | inl e => inl (Uncaught e)
         | inr u => inr u
         end)
      else
        ([Prompt "Enter the path to the input KML file: ";
          Ran (Print "The specified file does not exist.")], inr tt)
  end.

(** A console that types the given line; every path exists. *)
Definition typing (line : string) : Os := {|
  typed_line := Some line;
  strip := fun s => s;
  path_exists := fun _ => true
|}.

Definition line_feature : Feature :=
  mkFeature (Some "Road") (Some (OGRGeom "LINESTRING" [(0, 0, 0); (1, 1, 0)]%Q [])).

Definition bare_feature : Feature := mkFeature (Some "Nothing") None.

Definition two_point_multipolygon : Feature :=
  mkFeature None
    (Some (OGRGeom "MULTIPOLYGON" []
             [polygon_of square_points;
              polygon_of [(0, 0, 0); (1, 1, 0)]%Q])).

Definition mixed_layer : list Feature :=
  [line_feature; bare_feature; square_feature].

(** A file layer in which no file can be opened. *)
Definition no_file : Ogr := {|
  Open := fun _ => None;
  CreateDataSource := fun _ => true;
  CreateLayer := fun _ _ => true;
  CreateGeometryFromWkt := fun s => Some (OGRGeom s [] []);
  splitext_root := fun _ => "shapes"
|}.

(** A file layer that reads [layer] and cannot create a data source. *)
Definition read_only (layer : list Feature) : Ogr := {|
  Open := fun _ => Some (mkDataSource (Some layer));
  CreateDataSource := fun _ => false;
  CreateLayer := fun _ _ => true;
  CreateGeometryFromWkt := fun s => Some (OGRGeom s [] []);
  splitext_root := fun _ => "shapes"
|}.

(** * Properties *)

(** ** The run monad *)

Lemma bind_ok {A B} (m : M A) (k : A -> M B) t a :
  m = (t, inr a) -> bind m k = (t ++ fst (k a), snd (k a)).
Proof.
  intros ->. unfold bind. destruct (k a); reflexivity.
Qed.

Lemma bind_exn {A B} (m : M A) (k : A -> M B) t e :
  m = (t, inl e) -> bind m k = (t, inl e).
Proof. intros ->. reflexivity. Qed.

Lemma bind_trace_Forall {A B} (P : event -> Prop) (m : M A) (k : A -> M B) :
  Forall P (fst m) -> (forall a, Forall P (fst (k a))) ->
  Forall P (fst (bind m k)).
Proof.
  destruct m as [t [e | a]]; simpl; intros Ht Hk; [exact Ht |].
  specialize (Hk a). destruct (k a) as [t' r]; simpl in *.
  apply Forall_app; split; assumption.
Qed.

Lemma for_each_trace_Forall {A S} (P : event -> Prop) (body : S -> A -> M S) :
  (forall acc x, Forall P (fst (body acc x))) ->
  forall xs acc, Forall P (fst (for_each xs body acc)).
Proof.
  intros Hbody xs. induction xs as [| x r IH]; intros acc; simpl.
  - constructor.
  - apply bind_trace_Forall; [apply Hbody | intros a; apply IH].
Qed.

(** ** Reading a ring *)

Lemma map_nth_seq {A B} (f : A -> B) (d : A) (l : list A) :
  map (fun i => f (nth i l d)) (seq 0 (List.length l)) = map f l.
Proof.
  induction l as [| a l IH]; simpl; [reflexivity |].
  f_equal. rewrite <- seq_shift, map_map. exact IH.
Qed.

Lemma ring_coords_xy (ring : OGRGeometry) :
  ring_coords ring = map xy (points_of ring).
Proof.
  destruct ring as [n ps ss]. unfold ring_coords, GetPointCount, GetPoint.
  simpl. apply (map_nth_seq xy).
Qed.

Lemma ring_coords_length (ring : OGRGeometry) :
  List.length (ring_coords ring) = GetPointCount ring.
Proof.
  unfold ring_coords. rewrite length_map, length_seq. reflexivity.
Qed.

Lemma new_Polygon_ok (coords : list coord) :
  List.length coords = 0 \/ 3 <= List.length coords ->
  new_Polygon coords = inr (Polygon (close_ring coords) []).
Proof.
  unfold new_Polygon. intros [H | H].
  - rewrite H. reflexivity.
  - destruct (List.length coords) as [| [| [| n]]]; try lia; reflexivity.
Qed.

Lemma new_Polygon_inv (coords : list coord) (p : Geometry) :
  new_Polygon coords = inr p ->
  p = Polygon (close_ring coords) [] /\
  (List.length coords = 0 \/ 3 <= List.length coords).
Proof.
  unfold new_Polygon.
  destruct (List.length coords) as [| [| [| n]]]; intros H;
    try discriminate; inversion H; split; auto; right; lia.
Qed.

Lemma close_ring_In (coords : list coord) (v : coord) :
  In v (close_ring coords) <-> In v coords.
Proof.
  unfold close_ring. destruct coords as [| first rest]; [tauto |].
  destruct (_ || _); [| tauto].
  rewrite in_app_iff. cbn. tauto.
Qed.

Lemma close_ring_nil (coords : list coord) :
  close_ring coords = [] -> coords = [].
Proof.
  unfold close_ring. destruct coords as [| first rest]; [reflexivity |].
  destruct (_ || _); [| intros H; exact H].
  intros H. apply app_eq_nil in H. destruct H as [H _]. exact H.
Qed.

(** ** Extraction only writes to the console *)

Lemma lift_printed {A} (r : exn + A) : Forall printed (fst (lift r)).
Proof. constructor. Qed.

Lemma extract_polygon_printed geom polygons :
  Forall printed (fst (extract_polygon geom polygons)).
Proof.
  unfold extract_polygon. destruct (GetGeometryRef geom 0); [| constructor].
  apply bind_trace_Forall; [apply lift_printed | intros; constructor].
Qed.

Lemma extract_sub_polygon_printed geom acc i :
  Forall printed (fst (extract_sub_polygon geom acc i)).
Proof.
  unfold extract_sub_polygon.
  destruct (GetGeometryRef geom i) as [part |]; [| constructor].
  destruct (GetGeometryRef part 0); [| constructor].
  apply bind_trace_Forall; [apply lift_printed | intros; constructor].
Qed.

Lemma extract_multipolygon_printed geom polygons :
  Forall printed (fst (extract_multipolygon geom polygons)).
Proof.
  unfold extract_multipolygon. apply bind_trace_Forall.
  - apply for_each_trace_Forall. intros; apply extract_sub_polygon_printed.
  - intros; constructor.
Qed.

Lemma extract_feature_printed polygons feature :
  Forall printed (fst (extract_feature polygons feature)).
Proof.
  unfold extract_feature. destruct (FeatureGeometry feature); [| constructor].
  apply bind_trace_Forall.
  - repeat constructor.
  - intros _. destruct (String.eqb _ "POLYGON").
    + apply extract_polygon_printed.
    + destruct (String.eqb _ "MULTIPOLYGON");
        [apply extract_multipolygon_printed | constructor].
Qed.

Section Facts.
Context {shapely : Shapely} {ogr : Ogr}.

Lemma extract_printed (input_kml : string) :
  Forall printed (trace_of (extract_polygons_from_kml input_kml)).
Proof.
  unfold trace_of, extract_polygons_from_kml.
  destruct (Open input_kml) as [ds |]; [| constructor].
  destruct (GetLayer ds) as [layer |].
  - apply bind_trace_Forall; [repeat constructor | intros _].
    apply bind_trace_Forall.
    + apply for_each_trace_Forall. intros; apply extract_feature_printed.
    + intros polygons. apply bind_trace_Forall; repeat constructor.
  - apply bind_trace_Forall; repeat constructor.
Qed.

(** ** The repair step *)

Lemma validate_and_fix_polygon_run (p : Geometry) :
  validate_and_fix_polygon p = (fix_trace p, inr (fixed p)).
Proof.
  unfold validate_and_fix_polygon, fix_trace, fixed.
  destruct (is_valid p); reflexivity.
Qed.

Lemma comprehension_fix (l : list Geometry) :
  comprehension keep validate_and_fix_polygon l =
  (flat_map fix_trace (filter keep l), inr (map fixed (filter keep l))).
Proof.
  induction l as [| p l IH]; simpl; [reflexivity |].
  destruct (keep p); simpl; [| exact IH].
  rewrite validate_and_fix_polygon_run, IH. simpl.
  rewrite app_nil_r. reflexivity.
Qed.

(** ** The orchestrator, case by case *)

Lemma create_convex_hull_exn input_kml t e :
  extract_polygons_from_kml input_kml = (t, inl e) ->
  create_convex_hull input_kml = (t, inl e).
Proof. intros H. unfold create_convex_hull. rewrite H. reflexivity. Qed.

Lemma create_convex_hull_ok input_kml t polygons :
  extract_polygons_from_kml input_kml = (t, inr polygons) ->
  let kept := filter keep polygons in
  let valid := map fixed kept in
  let hull := convex_hull (unary_union valid) in
  create_convex_hull input_kml =
  if is_nil polygons then
    (t ++ [Print (nl ++ "No valid polygons found in the KML file.")%string],
     inl (ValueError "No polygons found to create a convex hull."))
  else if is_nil valid then
    (t ++ flat_map fix_trace kept
       ++ [Print "No valid polygons found after validation."], inr tt)
  else if is_empty hull then
    (t ++ flat_map fix_trace kept
       ++ [CallUnaryUnion valid; CallConvexHull (unary_union valid);
           Print "Error: Convex hull calculation resulted in an empty geometry."],
     inr tt)
  else
    (t ++ flat_map fix_trace kept
       ++ [CallUnaryUnion valid; CallConvexHull (unary_union valid);
           Print (nl ++ "Convex Hull successfully created.")%string]
       ++ fst (write_hull input_kml hull),
     snd (write_hull input_kml hull)).
Proof.
  intros H kept valid hull. unfold create_convex_hull.
  rewrite (bind_ok _ _ _ _ H).
  destruct (is_nil polygons) eqn:Hnil; [reflexivity |].
  rewrite comprehension_fix. fold kept valid. cbn [bind].
  destruct (is_nil valid) eqn:Hv.
  - reflexivity.
  - cbn -[write_hull is_empty]. fold hull.
    destruct (is_empty hull) eqn:He.
    + reflexivity.
    + destruct (write_hull input_kml hull) as [tw rw]. reflexivity.
Qed.

End Facts.

(** ** Empty collection and soft stop *)

Section Orchestrator.
Context {shapely : Shapely} {ogr : Ogr}.

(** C3. When extraction returns an empty collection, the run prints that
    no polygon was found and raises ValueError("No polygons found to create
    a convex hull."); the trace holds console lines only, so no union, no
    hull and no writer call is made. *)
Theorem C3_no_polygons_is_fatal (input_kml : string) (t : list event) :
  extract_polygons_from_kml input_kml = (t, inr []) ->
  create_convex_hull input_kml =
    (t ++ [Print (nl ++ "No valid polygons found in the KML file.")%string],
     inl (ValueError "No polygons found to create a convex hull.")) /\
  Forall printed (trace_of (create_convex_hull input_kml)).
Proof.
  intros H. pose proof (create_convex_hull_ok _ _ _ H) as E.
  cbn [is_nil] in E. split; [exact E |].
  rewrite E. unfold trace_of; cbn [fst].
  apply Forall_app; split; [| repeat constructor].
  pose proof (extract_printed input_kml) as P.
  rewrite H in P. exact P.
Qed.

(** C4. When the extracted collection is not empty but the list of kept
    and repaired polygons is, the run prints "No valid polygons found after
    validation." and returns normally; the trace holds console lines only,
    so the writer is never called. *)
Theorem C4_soft_stop (input_kml : string) (t tv : list event)
    (polygons : list Geometry) :
  extract_polygons_from_kml input_kml = (t, inr polygons) ->
  polygons <> [] ->
  comprehension keep validate_and_fix_polygon polygons = (tv, inr []) ->
  create_convex_hull input_kml =
    (t ++ [Print "No valid polygons found after validation."], inr tt) /\
  Forall printed (trace_of (create_convex_hull input_kml)).
Proof.
  intros H Hne Hc. rewrite comprehension_fix in Hc.
  injection Hc as Htv Hv.
  pose proof (create_convex_hull_ok _ _ _ H) as E. cbv zeta in E.
  destruct polygons as [| p ps]; [contradiction |]. cbn [is_nil] in E.
  rewrite Hv in E. cbn [is_nil] in E.
  apply map_eq_nil in Hv. rewrite Hv in E. cbn [flat_map app] in E.
  split; [exact E |].
  rewrite E. unfold trace_of; cbn [fst].
  apply Forall_app; split; [| repeat constructor].
  pose proof (extract_printed input_kml) as P.
  rewrite H in P. exact P.
Qed.

(** C6. Provided the zero-distance buffer returns a valid geometry,
    repairing the result of a repair returns it again; and a polygon that
    is valid already is returned as it is, with nothing printed. *)
Theorem C6_repair_idempotent :
  (forall g, is_valid (buffer0 g) = true) ->
  forall p, exists q,
    result_of (validate_and_fix_polygon p) = inr q /\
    result_of (validate_and_fix_polygon q) = inr q /\
    (is_valid p = true -> validate_and_fix_polygon p = ([], inr p)).
Proof.
  intros Hbuf p. exists (fixed p).
  rewrite !validate_and_fix_polygon_run. unfold result_of; cbn [snd].
  assert (Hfix : fixed (fixed p) = fixed p).
  { unfold fixed. destruct (is_valid p) eqn:Hp.
    - rewrite Hp. reflexivity.
    - rewrite Hbuf. reflexivity. }
  split; [reflexivity |]. split; [rewrite Hfix; reflexivity |].
  intros Hp. unfold fix_trace, fixed. rewrite Hp. reflexivity.
Qed.

End Orchestrator.

(** C9 (as amended). Reading a ring returns the (x, y) pairs of its N
    points in source order, for every N; when N = 0 or N >= 3 the polygon
    constructor accepts them and the polygon is appended, for the ring of a
    POLYGON as for the ring of a part of a MULTIPOLYGON. The shell of that
    polygon is the sequence read, closed by the constructor: left as it is
    when it ends on its first pair and N is not 3, and followed by its
    first pair otherwise. *)
Theorem C9_ring_extraction (ring geom part : OGRGeometry)
    (polygons : list Geometry) (i : nat) :
  ring_coords ring = map xy (points_of ring) /\
  List.length (ring_coords ring) = GetPointCount ring /\
  (GetPointCount ring = 0 \/ 3 <= GetPointCount ring ->
   (GetGeometryRef geom 0 = Some ring ->
    extract_polygon geom polygons =
      ([], inr (polygons
                  ++ [Polygon (close_ring (map xy (points_of ring))) []]))) /\
   (GetGeometryRef geom i = Some part -> GetGeometryRef part 0 = Some ring ->
    extract_sub_polygon geom polygons i =
      ([], inr (polygons
                  ++ [Polygon (close_ring (map xy (points_of ring))) []])))) /\
  (forall first rest,
     map xy (points_of ring) = first :: rest ->
     close_ring (map xy (points_of ring)) =
       if negb (Nat.eqb (GetPointCount ring) 3)
          && coord_eqb first (last (first :: rest) first)
       then first :: rest
       else (first :: rest) ++ [first]).
Proof.
  split; [apply ring_coords_xy |]. split; [apply ring_coords_length |].
  split.
  - intros HN.
    assert (Hnew : new_Polygon (ring_coords ring)
                   = inr (Polygon (close_ring (map xy (points_of ring))) [])).
    { rewrite <- ring_coords_xy. apply new_Polygon_ok.
      rewrite ring_coords_length. exact HN. }
    split.
    + intros Hr. unfold extract_polygon. rewrite Hr, Hnew. reflexivity.
    + intros Hp Hr. unfold extract_sub_polygon. rewrite Hp, Hr, Hnew.
      reflexivity.
  - intros first rest E.
    rewrite <- ring_coords_length, ring_coords_xy, E.
    unfold close_ring.
    destruct (Nat.eqb (List.length (first :: rest)) 3);
      destruct (coord_eqb first (last (first :: rest) first)); reflexivity.
Qed.

(** ** Which events each phase produces *)

Lemma printed_not_writer (e : event) : printed e -> is_writer_event e = false.
Proof. destruct e; unfold printed; simpl; congruence. Qed.

Lemma printed_not_union (e : event) (gs : list Geometry) :
  printed e -> e <> CallUnaryUnion gs.
Proof. intros P ->. discriminate P. Qed.

Lemma app_writer_split (l1 l2 pre post : list event) (e : event) :
  l1 ++ l2 = pre ++ e :: post ->
  Forall (fun x => is_writer_event x = false) l1 ->
  is_writer_event e = true ->
  exists pre', pre = l1 ++ pre' /\ l2 = pre' ++ e :: post.
Proof.
  revert pre. induction l1 as [| a l1 IH]; intros pre Heq Hall He.
  - exists pre. split; [reflexivity | exact Heq].
  - inversion Hall as [| ? ? Ha Hl1]; subst.
    destruct pre as [| b pre]; simpl in Heq; inversion Heq; subst.
    + congruence.
    + destruct (IH pre H1 Hl1 He) as [pre' [-> ->]].
      exists pre'. split; reflexivity.
Qed.

Lemma no_writer_in (l pre post : list event) (e : event) :
  l = pre ++ e :: post ->
  Forall (fun x => is_writer_event x = false) l ->
  is_writer_event e = true -> False.
Proof.
  intros -> Hall He. rewrite Forall_forall in Hall.
  assert (In e (pre ++ e :: post)) as Hin
    by (apply in_or_app; right; left; reflexivity).
  specialize (Hall e Hin). congruence.
Qed.

Section Phases.
Context {shapely : Shapely} {ogr : Ogr}.

Lemma fix_trace_no_writer (kept : list Geometry) :
  Forall (fun x => is_writer_event x = false) (flat_map fix_trace kept).
Proof.
  induction kept as [| p kept IH]; simpl; [constructor |].
  apply Forall_app; split; [| exact IH].
  unfold fix_trace. destruct (is_valid p); repeat constructor.
Qed.

Lemma fix_trace_no_union (kept gs : list Geometry) :
  ~ In (CallUnaryUnion gs) (flat_map fix_trace kept).
Proof.
  induction kept as [| p kept IH]; simpl; [tauto |].
  intros H. apply in_app_or in H. destruct H as [H | H]; [| auto].
  unfold fix_trace in H. destruct (is_valid p); simpl in H.
  - exact H.
  - destruct H as [H | [H | H]]; try discriminate H. exact H.
Qed.

Lemma write_hull_no_union (input_kml : string) (hull : Geometry)
    (gs : list Geometry) :
  ~ In (CallUnaryUnion gs) (fst (write_hull input_kml hull)).
Proof.
  unfold write_hull. cbn -[String.append].
  destruct (CreateDataSource _); cbn -[String.append].
  - destruct (CreateLayer _ _); cbn -[String.append].
    + destruct (CreateGeometryFromWkt _); cbn -[String.append];
        intros H; repeat (destruct H as [H | H]; [discriminate H |]);
        exact H.
    + intros H; repeat (destruct H as [H | H]; [discriminate H |]); exact H.
  - intros H; repeat (destruct H as [H | H]; [discriminate H |]); exact H.
Qed.

Lemma extract_no_writer (input_kml : string) (t : list event)
    (r : exn + list Geometry) :
  extract_polygons_from_kml input_kml = (t, r) ->
  Forall (fun x => is_writer_event x = false) t.
Proof.
  intros H. pose proof (extract_printed input_kml) as P.
  rewrite H in P. unfold trace_of in P; cbn [fst] in P.
  eapply Forall_impl; [| exact P]. apply printed_not_writer.
Qed.

Lemma extract_no_union (input_kml : string) (t : list event)
    (r : exn + list Geometry) (gs : list Geometry) :
  extract_polygons_from_kml input_kml = (t, r) ->
  ~ In (CallUnaryUnion gs) t.
Proof.
  intros H Hin. pose proof (extract_printed input_kml) as P.
  rewrite H in P. unfold trace_of in P; cbn [fst] in P.
  rewrite Forall_forall in P. specialize (P _ Hin). discriminate P.
Qed.

(** C5 (as amended). The list handed to the union is the list of repaired
    images of the extracted geometries that are Polygon instances and are
    not empty before the repair, in order: a polygon that is empty on
    entry never reaches the repair or the union. *)
Theorem C5_union_input (input_kml : string) (t : list event)
    (polygons gs : list Geometry) :
  extract_polygons_from_kml input_kml = (t, inr polygons) ->
  In (CallUnaryUnion gs) (trace_of (create_convex_hull input_kml)) ->
  gs = map fixed (filter keep polygons) /\
  forall g, In g gs ->
    exists p, In p polygons /\ isinstance_Polygon p = true /\
              is_empty p = false /\
              result_of (validate_and_fix_polygon p) = inr g.
Proof.
  intros H Hin.
  assert (Hgs : gs = map fixed (filter keep polygons)).
  { pose proof (create_convex_hull_ok _ _ _ H) as E. cbv zeta in E.
    rewrite E in Hin. unfold trace_of in Hin.
    pose proof (extract_no_union _ _ _ gs H) as Ht.
    pose proof (fix_trace_no_union (filter keep polygons) gs) as Hf.
    destruct (is_nil polygons).
    - cbn [fst] in Hin. apply in_app_or in Hin.
      destruct Hin as [Hin | [Hin | []]]; [tauto | discriminate Hin].
    - destruct (is_nil (map fixed (filter keep polygons))).
      + cbn [fst] in Hin. apply in_app_or in Hin.
        destruct Hin as [Hin | Hin]; [tauto |].
        apply in_app_or in Hin.
        destruct Hin as [Hin | [Hin | []]]; [tauto | discriminate Hin].
      + destruct (is_empty _).
        * cbn [fst] in Hin. apply in_app_or in Hin.
          destruct Hin as [Hin | Hin]; [tauto |].
          apply in_app_or in Hin. destruct Hin as [Hin | Hin]; [tauto |].
          destruct Hin as [Hin | [Hin | [Hin | []]]];
            try discriminate Hin.
          inversion Hin; reflexivity.
        * cbn [fst] in Hin. apply in_app_or in Hin.
          destruct Hin as [Hin | Hin]; [tauto |].
          apply in_app_or in Hin. destruct Hin as [Hin | Hin]; [tauto |].
          apply in_app_or in Hin. destruct Hin as [Hin | Hin].
          -- destruct Hin as [Hin | [Hin | [Hin | []]]];
               try discriminate Hin.
             inversion Hin; reflexivity.
          -- exfalso. exact (write_hull_no_union _ _ _ Hin). }
  split; [exact Hgs |].
  intros g Hg. rewrite Hgs in Hg. apply in_map_iff in Hg.
  destruct Hg as [p [Hp Hk]]. apply filter_In in Hk.
  destruct Hk as [Hk1 Hk2]. unfold keep in Hk2.
  apply andb_true_iff in Hk2. destruct Hk2 as [Hi Hne].
  exists p. repeat split; try assumption.
  - destruct (is_empty p); [discriminate Hne | reflexivity].
  - rewrite validate_and_fix_polygon_run. unfold result_of; cbn [snd].
    rewrite Hp. reflexivity.
Qed.

Lemma writer_after_hull (input_kml : string) (pre post : list event)
    (e : event) :
  trace_of (create_convex_hull input_kml) = pre ++ e :: post ->
  is_writer_event e = true ->
  exists valid,
    valid <> [] /\
    In (CallUnaryUnion valid) pre /\
    In (CallConvexHull (unary_union valid)) pre /\
    is_empty (convex_hull (unary_union valid)) = false.
Proof.
  intros Htr He. unfold trace_of in Htr.
  destruct (extract_polygons_from_kml input_kml) as [t [x | polygons]] eqn:H.
  - rewrite (create_convex_hull_exn _ _ _ H) in Htr. cbn [fst] in Htr.
    exfalso. eapply no_writer_in; eauto. eapply extract_no_writer; eauto.
  - pose proof (extract_no_writer _ _ _ H) as Ht.
    pose proof (fix_trace_no_writer (filter keep polygons)) as Hf.
    rewrite (create_convex_hull_ok _ _ _ H) in Htr. cbv zeta in Htr.
    destruct (is_nil polygons).
    { exfalso. cbn [fst] in Htr. eapply no_writer_in; eauto.
      apply Forall_app; split; [exact Ht | repeat constructor]. }
    destruct (is_nil (map fixed (filter keep polygons))) eqn:Hv.
    { exfalso. cbn [fst] in Htr. eapply no_writer_in; eauto.
      repeat (apply Forall_app; split); auto; repeat constructor. }
    destruct (is_empty _) eqn:Hemp.
    { exfalso. cbn [fst] in Htr. eapply no_writer_in; eauto.
      repeat (apply Forall_app; split); auto; repeat constructor. }
    cbn [fst] in Htr. rewrite !app_assoc in Htr.
    apply app_writer_split in Htr; [| | exact He].
    + destruct Htr as [pre' [-> _]].
      exists (map fixed (filter keep polygons)).
      split; [intros E; rewrite E in Hv; discriminate Hv |].
      split; [| split; [| exact Hemp]].
      * apply in_or_app; left. apply in_or_app; right. left; reflexivity.
      * apply in_or_app; left. apply in_or_app; right.
        right; left; reflexivity.
    + repeat (apply Forall_app; split); auto; repeat constructor.
Qed.

(** C8. The output file is never created before a non-empty convex hull has
    been computed: every call to the OGR writer, the creation of the
    output data source first of all, comes after the hull of the union has
    been computed, and that hull is not empty. So on every path on which
    no non-empty hull is computed (file not opened, constructor error, no
    polygon, soft stop, empty union or hull) the run raises or returns
    without any writer call. *)
Theorem C8_writer_only_after_hull (input_kml : string) :
  (forall pre e post,
     trace_of (create_convex_hull input_kml) = pre ++ e :: post ->
     is_writer_event e = true ->
     exists valid,
       valid <> [] /\
       In (CallUnaryUnion valid) pre /\
       In (CallConvexHull (unary_union valid)) pre /\
       is_empty (convex_hull (unary_union valid)) = false) /\
  ((forall g, In (CallConvexHull g) (trace_of (create_convex_hull input_kml))
              -> is_empty (convex_hull g) = true) ->
   Forall (fun x => is_writer_event x = false)
          (trace_of (create_convex_hull input_kml))).
Proof.
  split.
  - intros pre e post. apply writer_after_hull.
  - intros Hno. apply Forall_forall. intros e Hin.
    destruct (is_writer_event e) eqn:He; [exfalso | reflexivity].
    destruct (in_split _ _ Hin) as [pre [post Htr]].
    destruct (writer_after_hull _ _ _ _ Htr He) as [valid [_ [_ [Hh Hemp]]]].
    assert (Hc : is_empty (convex_hull (unary_union valid)) = true).
    { apply Hno. rewrite Htr. apply in_or_app. left. exact Hh. }
    congruence.
Qed.

End Phases.

(** ** Multipolygons *)

Lemma ringless_parts_loop (name : string) (pts : list OGRPoint)
    (parts : list OGRGeometry) :
  (forall part, In part parts -> GetGeometryRef part 0 = None) ->
  forall (l : list nat) (acc : list Geometry),
    (forall i, In i l -> i < List.length parts) ->
    for_each l (extract_sub_polygon (OGRGeom name pts parts)) acc
    = ([], inr acc).
Proof.
  intros Hparts l. induction l as [| i l IH]; intros acc Hl.
  - reflexivity.
  - cbn [for_each]. unfold extract_sub_polygon at 1. cbn [GetGeometryRef].
    destruct (nth_error parts i) as [part |] eqn:E.
    + rewrite (Hparts part (nth_error_In _ _ E)).
      cbn [bind ret]. rewrite IH; [reflexivity |].
      intros j Hj. apply Hl. right. exact Hj.
    + apply nth_error_None in E.
      assert (i < List.length parts) by (apply Hl; left; reflexivity). lia.
Qed.

Lemma extract_feature_ringless (polygons : list Geometry) (f : Feature) :
  ringless_multipolygon f ->
  exists line,
    extract_feature polygons f
    = ([Print line], inr (polygons ++ [MultiPolygon []])).
Proof.
  intros [pts [parts [Hg Hparts]]].
  unfold extract_feature. rewrite Hg. cbn [GetGeometryName].
  eexists. cbn -[String.append for_each].
  unfold extract_multipolygon. cbn [GetGeometryCount].
  rewrite (ringless_parts_loop _ _ _ Hparts).
  - reflexivity.
  - intros i Hi. apply in_seq in Hi. lia.
Qed.

Lemma for_each_ringless (layer : list Feature) :
  Forall ringless_multipolygon layer ->
  forall acc, exists t,
    for_each layer extract_feature acc
    = (t, inr (acc ++ map (fun _ => MultiPolygon []) layer)) /\
    Forall printed t.
Proof.
  induction 1 as [| f layer Hf _ IH]; intros acc.
  - exists []. cbn. rewrite app_nil_r. split; [reflexivity | constructor].
  - destruct (extract_feature_ringless acc f Hf) as [line E].
    destruct (IH (acc ++ [MultiPolygon []])) as [t [Et Pt]].
    exists (Print line :: t). cbn [for_each]. rewrite E. cbn [bind].
    rewrite Et. cbn [map]. rewrite <- app_assoc. cbn [app].
    split; [reflexivity |]. constructor; [reflexivity | exact Pt].
Qed.

Lemma keep_ringless (layer : list Feature) :
  filter keep (map (fun _ : Feature => MultiPolygon []) layer) = [].
Proof. induction layer as [| f layer IH]; simpl; [reflexivity | exact IH]. Qed.

Section Multipolygons.
Context {shapely : Shapely} {ogr : Ogr}.

(** C10. When every feature of the layer is a MULTIPOLYGON none of whose
    parts has an outer ring, extraction appends one empty MultiPolygon per
    feature; with at least one such feature the collection is not empty,
    and the run ends normally on "No valid polygons found after
    validation." with console lines only. *)
Theorem C10_ringless_multipolygons (input_kml : string) (ds : DataSource)
    (layer : list Feature) :
  Open input_kml = Some ds ->
  GetLayer ds = Some layer ->
  Forall ringless_multipolygon layer ->
  result_of (extract_polygons_from_kml input_kml)
    = inr (map (fun _ => MultiPolygon []) layer) /\
  is_empty (MultiPolygon []) = true /\
  (layer <> [] ->
   exists t,
     create_convex_hull input_kml
       = (t ++ [Print "No valid polygons found after validation."], inr tt) /\
     Forall printed t).
Proof.
  intros Ho Hl Hall.
  destruct (for_each_ringless layer Hall []) as [t [Et Pt]].
  cbn [app] in Et.
  assert (E : exists t',
    extract_polygons_from_kml input_kml
      = (t', inr (map (fun _ => MultiPolygon []) layer)) /\ Forall printed t').
  { unfold extract_polygons_from_kml. rewrite Ho, Hl.
    eexists. cbn -[String.append for_each]. rewrite Et.
    cbn -[String.append]. split; [reflexivity |].
    constructor; [reflexivity |]. apply Forall_app; split; [exact Pt |].
    repeat constructor. }
  destruct E as [t' [E Pt']].
  split; [rewrite E; reflexivity |]. split; [reflexivity |].
  intros Hne. exists t'. split; [| exact Pt'].
  pose proof (create_convex_hull_ok _ _ _ E) as R. cbv zeta in R.
  rewrite keep_ringless in R. cbn [map flat_map is_nil app] in R.
  destruct layer as [| f layer]; [contradiction |]. exact R.
Qed.

End Multipolygons.

(** ** Convex hulls of point sets *)

Lemma closure_extensive (A : region_t) : subset A (convex_closure A).
Proof. intros x Hx C _ HAC. apply HAC, Hx. Qed.

Lemma closure_convex (A : region_t) : convex (convex_closure A).
Proof.
  split.
  - intros a b Hab Ha C HC HAC.
    apply (proj1 HC a b Hab). apply Ha; assumption.
  - intros a b t H0 H1 Ha Hb C HC HAC.
    apply (proj2 HC); try assumption.
    + apply Ha; assumption.
    + apply Hb; assumption.
Qed.

Lemma closure_least (A C : region_t) :
  convex C -> subset A C -> subset (convex_closure A) C.
Proof. intros HC HAC x Hx. apply Hx; assumption. Qed.

Lemma closure_sandwich (A B : region_t) :
  subset B A -> subset A (convex_closure B) ->
  same_region (convex_closure A) (convex_closure B).
Proof.
  intros HBA HAB x. split.
  - apply closure_least; [apply closure_convex | exact HAB].
  - apply closure_least; [apply closure_convex |].
    intros y Hy. apply closure_extensive, HBA, Hy.
Qed.

Lemma closure_of_nothing (x : coord) : ~ convex_closure (vertex_set []) x.
Proof.
  intros H. apply (H (fun _ => False)).
  - split; intros; assumption.
  - intros y [].
Qed.

Section SinglePolygon.
Context {shapely : Shapely} {ogr : Ogr}.

(** C2. The layer holds one feature, a POLYGON whose outer ring builds the
    polygon [p]; [p] is valid and not empty. Under the planar reading of
    the kernel, the run computes exactly one hull, that of the union of
    [p] alone, the points it covers are exactly the convex hull of the
    vertices of [p], and this hull is the geometry given to the writer. *)
Theorem C2_single_polygon_hull (region : Geometry -> region_t)
    (input_kml : string) (ds : DataSource) (f : Feature)
    (geom ring : OGRGeometry) (p : Geometry) :
  PlanarSemantics shapely region ->
  Open input_kml = Some ds ->
  GetLayer ds = Some [f] ->
  FeatureGeometry f = Some geom ->
  GetGeometryName geom = "POLYGON" ->
  GetGeometryRef geom 0 = Some ring ->
  new_Polygon (ring_coords ring) = inr p ->
  is_empty p = false ->
  is_valid p = true ->
  let hull := convex_hull (unary_union [p]) in
  same_region (region hull)
              (convex_closure (vertex_set (map xy (points_of ring)))) /\
  exists t,
    Forall printed t /\
    create_convex_hull input_kml =
      (t ++ [CallUnaryUnion [p]; CallConvexHull (unary_union [p]);
             Print (nl ++ "Convex Hull successfully created.")%string]
         ++ fst (write_hull input_kml hull),
       snd (write_hull input_kml hull)).
Proof.
  intros Sem Ho Hl Hg Hn Hr Hnew Hne Hv hull.
  destruct (new_Polygon_inv _ _ Hnew) as [Hp _].
  rewrite ring_coords_xy in Hp. set (shell := map xy (points_of ring)) in *.
  assert (Hv' : is_valid (Polygon (close_ring shell) []) = true)
    by (rewrite <- Hp; exact Hv).
  destruct (polygon_region _ _ Sem (close_ring shell) [] Hv') as [Hin' Hout'].
  rewrite <- Hp in Hin', Hout'.
  assert (Hin : subset (vertex_set shell) (region p)).
  { intros y Hy. apply Hin'. apply close_ring_In. exact Hy. }
  assert (Hout : subset (region p) (convex_closure (vertex_set shell))).
  { intros y Hy. apply Hout' in Hy. revert y Hy.
    apply closure_least; [apply closure_convex |].
    intros z Hz. apply closure_extensive. apply close_ring_In. exact Hz. }
  pose proof (union_single _ _ Sem p Hv) as Hu.
  pose proof (hull_region _ _ Sem (unary_union [p])) as Hh. fold hull in Hh.
  assert (Hsame : same_region (region hull) (convex_closure (vertex_set shell))).
  { intros x. rewrite (Hh x). apply closure_sandwich.
    - intros y Hy. apply Hu, Hin, Hy.
    - intros y Hy. apply Hout, Hu, Hy. }
  split; [exact Hsame |].
  assert (Hhull : is_empty hull = false).
  { destruct (is_empty hull) eqn:E; [exfalso | reflexivity].
    destruct shell as [| c shell'] eqn:Es.
    - rewrite Hp in Hne. discriminate Hne.
    - apply (empty_region _ _ Sem hull c E). apply Hsame.
      apply closure_extensive. left. reflexivity. }
  assert (E : exists t, Forall printed t /\
                        extract_polygons_from_kml input_kml = (t, inr [p])).
  { unfold extract_polygons_from_kml. rewrite Ho, Hl.
    eexists. cbn -[String.append extract_feature].
    unfold extract_feature. rewrite Hg, Hn. cbn -[String.append].
    unfold extract_polygon. rewrite Hr, Hnew. cbn -[String.append].
    split; [| reflexivity]. repeat constructor. }
  destruct E as [t [Pt E]]. exists t. split; [exact Pt |].
  pose proof (create_convex_hull_ok _ _ _ E) as R. cbv zeta in R.
  assert (Hk : keep p = true) by (unfold keep; rewrite Hne, Hp; reflexivity).
  cbn [filter is_nil] in R. rewrite Hk in R.
  cbn [map flat_map is_nil app] in R.
  unfold fixed, fix_trace in R. rewrite Hv in R. fold hull in R.
  rewrite Hhull in R. exact R.
Qed.

End SinglePolygon.

(** ** The small kernel satisfies the planar reading *)

Lemma is_empty_vertices : forall g, is_empty g = true -> vertices g = [].
Proof.
  fix IH 1. intros [shell holes | gs | cs | cs | gs]; cbn [is_empty vertices].
  - destruct shell; [reflexivity | discriminate].
  - induction gs as [| x r IHr]; [reflexivity |].
    intros H. apply andb_true_iff in H. destruct H as [H1 H2].
    rewrite (IH x H1). exact (IHr H2).
  - destruct cs; [reflexivity | discriminate].
  - destruct cs; [reflexivity | discriminate].
  - induction gs as [| x r IHr]; [reflexivity |].
    intros H. apply andb_true_iff in H. destruct H as [H1 H2].
    rewrite (IH x H1). exact (IHr H2).
Qed.

Lemma area_kernel_semantics : PlanarSemantics area_kernel area_region.
Proof.
  split.
  - intros g x E. unfold area_region. rewrite (is_empty_vertices g E).
    apply closure_of_nothing.
  - intros shell holes _. unfold area_region. cbn [vertices]. split.
    + apply closure_extensive.
    + intros x Hx. exact Hx.
  - intros g _ x. unfold area_region. cbn [unary_union area_kernel vertices].
    rewrite app_nil_r. tauto.
  - intros g x. unfold area_region.
    cbn [convex_hull area_kernel vertices]. split.
    + apply closure_extensive.
    + apply closure_least; [apply closure_convex | intros y Hy; exact Hy].
Qed.

(** The convex hull of the corners of the unit square holds its centre and
    leaves out the point (2, 2). *)
Lemma halfplane_convex : convex (fun p => (fst p <= 1)%Q).
Proof.
  split.
  - intros a b [H _] Ha. rewrite <- H. exact Ha.
  - intros a b t H0 H1 Ha Hb. unfold between. cbn [fst]. nra.
Qed.

Lemma square_hull_centre :
  convex_closure (vertex_set (map xy square_points)) (1 # 2, 1 # 2)%Q.
Proof.
  intros C [Heq Hseg] HAC.
  apply (Heq (between (1 # 2) (0, 0)%Q (1, 1)%Q)).
  - split; reflexivity.
  - apply Hseg; try (apply HAC; cbn; tauto); unfold Qle; cbn; lia.
Qed.

Lemma square_hull_outside :
  ~ convex_closure (vertex_set (map xy square_points)) (2, 2)%Q.
Proof.
  intros H. specialize (H _ halfplane_convex).
  assert (Hle : (fst (2, 2)%Q <= 1)%Q).
  { apply H. intros y Hy. cbn in Hy.
    repeat (destruct Hy as [<- | Hy]; [cbn; unfold Qle; cbn; lia |]).
    destruct Hy. }
  cbn in Hle. unfold Qle in Hle. cbn in Hle. lia.
Qed.

(** ** Concrete runs *)

(** C1. A layer whose only feature is a MULTIPOLYGON with one square part:
    extraction returns the MultiPolygon that holds the square, but the run
    stops on "No valid polygons found after validation." without any
    union: the square never takes part in a union. *)
Theorem C1_multipolygon_dropped (shapely : Shapely) :
  result_of (@extract_polygons_from_kml
               (one_file [multipolygon_feature] true) "shapes.kml")
    = inr [MultiPolygon [Polygon (map xy square_points) []]] /\
  @create_convex_hull shapely (one_file [multipolygon_feature] true)
      "shapes.kml"
    = ([Print (nl ++ "Extracted Features:")%string;
        Print " - Name: Islands, Geometry Type: MULTIPOLYGON";
        Print (nl ++ "Extracted 1 polygons.")%string;
        Print "No valid polygons found after validation."],
       inr tt) /\
  forall gs,
    ~ In (CallUnaryUnion gs)
         (trace_of (@create_convex_hull shapely
                      (one_file [multipolygon_feature] true) "shapes.kml")).
Proof.
  split; [reflexivity |].
  assert (E : @create_convex_hull shapely
                (one_file [multipolygon_feature] true) "shapes.kml"
              = ([Print (nl ++ "Extracted Features:")%string;
                  Print " - Name: Islands, Geometry Type: MULTIPOLYGON";
                  Print (nl ++ "Extracted 1 polygons.")%string;
                  Print "No valid polygons found after validation."],
                 inr tt)) by reflexivity.
  split; [exact E |].
  intros gs. rewrite E. cbn.
  intros H. repeat (destruct H as [H | H]; [discriminate H |]). exact H.
Qed.

(** The polygon of the shell (0,0), (1,1), (2,2) is not empty and is
    invalid; its zero-distance buffer is the empty polygon. *)
Lemma sliver_repair :
  is_empty (Polygon (close_ring (map xy collinear_points)) []) = false /\
  @validate_and_fix_polygon area_kernel
     (Polygon (close_ring (map xy collinear_points)) [])
    = ([Print "Invalid geometry detected. Attempting to fix...";
        CallBuffer0 (Polygon (close_ring (map xy collinear_points)) [])],
       inr (Polygon [] [])).
Proof. split; reflexivity. Qed.

Lemma sliver_run :
  @create_convex_hull area_kernel (one_file [collinear_feature] true)
      "shapes.kml"
  = ([Print (nl ++ "Extracted Features:")%string;
      Print " - Name: Sliver, Geometry Type: POLYGON";
      Print (nl ++ "Extracted 1 polygons.")%string;
      Print "Invalid geometry detected. Attempting to fix...";
      CallBuffer0 (Polygon (close_ring (map xy collinear_points)) []);
      CallUnaryUnion [Polygon [] []];
      CallConvexHull (GeometryCollection [Polygon [] []]);
      Print "Error: Convex hull calculation resulted in an empty geometry."],
     inr tt).
Proof. reflexivity. Qed.

(** Counterexample to C5 as stated. On the layer that holds the sliver the
    union receives the repaired sliver, which is empty: it is not true that
    every geometry handed to the union is non-empty. *)
Lemma C5_counterexample :
  ~ (forall gs g,
       In (CallUnaryUnion gs)
          (trace_of (@create_convex_hull area_kernel
                       (one_file [collinear_feature] true) "shapes.kml")) ->
       In g gs -> is_empty g = false).
Proof.
  intros H. specialize (H [Polygon [] []] (Polygon [] [])).
  rewrite sliver_run in H. cbn in H.
  assert (E : true = false) by (apply H; tauto). discriminate E.
Qed.

Lemma short_ring_run :
  GetPointCount (ring_of [(0, 0, 0)%Q]) = 1 /\
  ring_coords (ring_of [(0, 0, 0)%Q]) = [(0, 0)%Q] /\
  @create_convex_hull area_kernel (one_file [short_ring_feature] true)
      "shapes.kml"
  = ([Print (nl ++ "Extracted Features:")%string;
      Print " - Name: Unnamed Feature, Geometry Type: POLYGON"],
     inl (ValueError linearring_error)).
Proof. repeat split; reflexivity. Qed.

(** Counterexample to C9 as stated. The outer ring of this POLYGON is
    present and has one point; wrapping it into a polygon does not
    succeed: the constructor raises ValueError. *)
Lemma C9_counterexample :
  ~ (exists polygons,
       result_of (extract_polygon (polygon_of [(0, 0, 0)%Q]) [])
       = inr polygons).
Proof. intros [polygons H]. discriminate H. Qed.

(** ** The theorems at concrete inputs *)

Lemma C2_witness :
  PlanarSemantics area_kernel area_region /\
  new_Polygon (ring_coords (ring_of square_points))
    = inr (Polygon (map xy square_points) []) /\
  @is_valid area_kernel (Polygon (map xy square_points) []) = true /\
  same_region
    (area_region (@convex_hull area_kernel
                    (@unary_union area_kernel
                       [Polygon (map xy square_points) []])))
    (convex_closure (vertex_set (map xy square_points))).
Proof.
  split; [exact area_kernel_semantics |].
  split; [reflexivity |]. split; [reflexivity |].
  exact (proj1 (@C2_single_polygon_hull area_kernel
                  (one_file [square_feature] true) area_region "shapes.kml"
                  (mkDataSource (Some [square_feature])) square_feature
                  (polygon_of square_points) (ring_of square_points)
                  (Polygon (map xy square_points) [])
                  area_kernel_semantics eq_refl eq_refl eq_refl eq_refl
                  eq_refl eq_refl eq_refl eq_refl)).
Defined.

Lemma C3_witness :
  @extract_polygons_from_kml (one_file [] true) "shapes.kml"
    = ([Print (nl ++ "Extracted Features:")%string;
        Print (nl ++ "Extracted 0 polygons.")%string], inr []) /\
  result_of (@create_convex_hull area_kernel (one_file [] true) "shapes.kml")
    = inl (ValueError "No polygons found to create a convex hull.").
Proof.
  split; [reflexivity |].
  rewrite (proj1 (@C3_no_polygons_is_fatal area_kernel (one_file [] true)
                    "shapes.kml" _ eq_refl)).
  reflexivity.
Defined.

Lemma C4_witness :
  @comprehension _ _ keep (@validate_and_fix_polygon area_kernel)
     [MultiPolygon [Polygon (map xy square_points) []]] = ([], inr []) /\
  result_of (@create_convex_hull area_kernel
               (one_file [multipolygon_feature] true) "shapes.kml")
    = inr tt.
Proof.
  split; [reflexivity |].
  rewrite (proj1 (@C4_soft_stop area_kernel
                    (one_file [multipolygon_feature] true) "shapes.kml"
                    _ [] [MultiPolygon [Polygon (map xy square_points) []]]
                    eq_refl ltac:(discriminate) eq_refl)).
  reflexivity.
Defined.

Lemma C5_witness :
  In (CallUnaryUnion [Polygon (map xy square_points) []])
     (trace_of (@create_convex_hull area_kernel
                  (one_file [square_feature] true) "shapes.kml")) /\
  [Polygon (map xy square_points) []]
    = map (@fixed area_kernel)
          (filter keep [Polygon (map xy square_points) []]).
Proof.
  assert (Hin : In (CallUnaryUnion [Polygon (map xy square_points) []])
                   (trace_of (@create_convex_hull area_kernel
                      (one_file [square_feature] true) "shapes.kml"))).
  { vm_compute. tauto. }
  split; [exact Hin |].
  exact (proj1 (@C5_union_input area_kernel (one_file [square_feature] true)
                  "shapes.kml" _ [Polygon (map xy square_points) []]
                  [Polygon (map xy square_points) []] eq_refl Hin)).
Defined.

Lemma C6_witness :
  (forall g, @is_valid area_kernel (@buffer0 area_kernel g) = true) /\
  exists q,
    result_of (@validate_and_fix_polygon area_kernel
                 (Polygon (map xy collinear_points) [])) = inr q /\
    result_of (@validate_and_fix_polygon area_kernel q) = inr q.
Proof.
  assert (Hbuf : forall g, @is_valid area_kernel (@buffer0 area_kernel g)
                           = true).
  { intros g. cbn. destruct (area_valid g) eqn:E; [exact E | reflexivity]. }
  split; [exact Hbuf |].
  destruct (@C6_repair_idempotent area_kernel Hbuf
              (Polygon (map xy collinear_points) [])) as [q [H1 [H2 _]]].
  exists q. split; assumption.
Defined.

Lemma C8_witness :
  exists valid,
    valid <> [] /\
    In (CallUnaryUnion valid)
       [Print (nl ++ "Extracted Features:")%string;
        Print " - Name: Square, Geometry Type: POLYGON";
        Print (nl ++ "Extracted 1 polygons.")%string;
        CallUnaryUnion [Polygon (map xy square_points) []];
        CallConvexHull (GeometryCollection [Polygon (map xy square_points) []]);
        Print (nl ++ "Convex Hull successfully created.")%string] /\
    In (CallConvexHull (@unary_union area_kernel valid))
       [Print (nl ++ "Extracted Features:")%string;
        Print " - Name: Square, Geometry Type: POLYGON";
        Print (nl ++ "Extracted 1 polygons.")%string;
        CallUnaryUnion [Polygon (map xy square_points) []];
        CallConvexHull (GeometryCollection [Polygon (map xy square_points) []]);
        Print (nl ++ "Convex Hull successfully created.")%string] /\
    is_empty (@convex_hull area_kernel (@unary_union area_kernel valid))
      = false.
Proof.
  exact (proj1 (@C8_writer_only_after_hull area_kernel
           (one_file [square_feature] true) "shapes.kml")
           [Print (nl ++ "Extracted Features:")%string;
            Print " - Name: Square, Geometry Type: POLYGON";
            Print (nl ++ "Extracted 1 polygons.")%string;
            CallUnaryUnion [Polygon (map xy square_points) []];
            CallConvexHull
              (GeometryCollection [Polygon (map xy square_points) []]);
            Print (nl ++ "Convex Hull successfully created.")%string]
           (DoCreateDataSource "shapes_convex_hull.kml")
           [DoCreateLayer "shapes_convex_hull.kml" "Convex_Hull";
            DoCreateFeature "shapes_convex_hull.kml" (OGRGeom "POLYGON" [] []);
            Print (nl ++ "Convex hull KML saved to: shapes_convex_hull.kml")%string]
           eq_refl eq_refl).
Defined.

Lemma C9_witness :
  3 <= GetPointCount (ring_of triangle_points) /\
  extract_polygon (polygon_of triangle_points) []
    = ([], inr [Polygon [(0, 0); (1, 0); (1, 1); (0, 0)]%Q []]).
Proof.
  assert (H : 3 <= GetPointCount (ring_of triangle_points))
    by (vm_compute; lia).
  split; [exact H |].
  exact (proj1 (proj1 (proj2 (proj2
           (C9_ring_extraction (ring_of triangle_points)
              (polygon_of triangle_points) (ring_of triangle_points) [] 0)))
           (or_intror H)) eq_refl).
Defined.

Lemma C10_witness :
  Forall ringless_multipolygon [ringless_feature; ringless_feature] /\
  result_of (@extract_polygons_from_kml
               (one_file [ringless_feature; ringless_feature] true)
               "shapes.kml")
    = inr [MultiPolygon []; MultiPolygon []].
Proof.
  assert (H : Forall ringless_multipolygon [ringless_feature; ringless_feature]).
  { repeat constructor;
      (exists [], [OGRGeom "POLYGON" [] []]; split; [reflexivity |];
       intros part [<- | []]; reflexivity). }
  split; [exact H |].
  exact (proj1 (@C10_ringless_multipolygons area_kernel
                  (one_file [ringless_feature; ringless_feature] true)
                  "shapes.kml" _ _ eq_refl eq_refl H)).
Defined.

(** * Further properties of the feature loop *)

Lemma trace_bind {A B} (m : M A) (k : A -> M B) :
  fst (bind m k)
  = fst m ++ match snd m with inl _ => [] | inr a => fst (k a) end.
Proof.
  destruct m as [t [e | a]]; simpl.
  - rewrite app_nil_r. reflexivity.
  - destruct (k a); reflexivity.
Qed.

Lemma result_bind {A B} (m : M A) (k : A -> M B) :
  snd (bind m k) = match snd m with inl e => inl e | inr a => snd (k a) end.
Proof.
  destruct m as [t [e | a]]; simpl; [reflexivity |].
  destruct (k a); reflexivity.
Qed.

Lemma Forall_False_nil {A} (l : list A) : Forall (fun _ => False) l -> l = [].
Proof. destruct l; [reflexivity |]. intros H. inversion H. contradiction. Qed.

Lemma extract_polygon_silent geom polygons :
  fst (extract_polygon geom polygons) = [].
Proof.
  unfold extract_polygon. destruct (GetGeometryRef geom 0); [| reflexivity].
  rewrite trace_bind. cbn. destruct (new_Polygon _); reflexivity.
Qed.

Lemma extract_sub_polygon_silent geom acc i :
  fst (extract_sub_polygon geom acc i) = [].
Proof.
  unfold extract_sub_polygon.
  destruct (GetGeometryRef geom i) as [part |]; [| reflexivity].
  destruct (GetGeometryRef part 0); [| reflexivity].
  rewrite trace_bind. cbn. destruct (new_Polygon _); reflexivity.
Qed.

Lemma sub_polygon_loop_silent geom l acc :
  fst (for_each l (extract_sub_polygon geom) acc) = [].
Proof.
  apply Forall_False_nil. apply for_each_trace_Forall.
  intros a x. rewrite extract_sub_polygon_silent. constructor.
Qed.

Lemma extract_multipolygon_silent geom polygons :
  fst (extract_multipolygon geom polygons) = [].
Proof.
  unfold extract_multipolygon. rewrite trace_bind, sub_polygon_loop_silent.
  destruct (snd _); reflexivity.
Qed.

Lemma extract_feature_trace polygons f :
  fst (extract_feature polygons f)
  = if has_geometry f then [Print (feature_line f)] else [].
Proof.
  unfold extract_feature, has_geometry, feature_line.
  destruct (FeatureGeometry f) as [geom |]; [| reflexivity].
  rewrite trace_bind. cbn [print emit fst snd app].
  destruct (String.eqb _ "POLYGON").
  - rewrite extract_polygon_silent. reflexivity.
  - destruct (String.eqb _ "MULTIPOLYGON").
    + rewrite extract_multipolygon_silent. reflexivity.
    + reflexivity.
Qed.

Lemma extract_feature_result polygons f :
  snd (extract_feature polygons f)
  = match FeatureGeometry f with
    | None => inr polygons
    | Some geom =>
        if String.eqb (GetGeometryName geom) "POLYGON"
        then snd (extract_polygon geom polygons)
        else if String.eqb (GetGeometryName geom) "MULTIPOLYGON"
             then snd (extract_multipolygon geom polygons)
             else inr polygons
    end.
Proof.
  unfold extract_feature.
  destruct (FeatureGeometry f) as [geom |]; [| reflexivity].
  rewrite result_bind. cbn [print emit snd].
  destruct (String.eqb _ "POLYGON"); [reflexivity |].
  destruct (String.eqb _ "MULTIPOLYGON"); reflexivity.
Qed.

Lemma for_each_cons {A S} (x : A) (r : list A) (body : S -> A -> M S)
    (acc : S) :
  for_each (x :: r) body acc
  = bind (body acc x) (fun acc' => for_each r body acc').
Proof. reflexivity. Qed.

Lemma feature_loop_log (layer : list Feature) :
  forall acc t polygons,
    for_each layer extract_feature acc = (t, inr polygons) ->
    t = map (fun f => Print (feature_line f)) (filter has_geometry layer).
Proof.
  induction layer as [| f layer IH]; intros acc t polygons H.
  - inversion H. reflexivity.
  - rewrite for_each_cons in H.
    pose proof (extract_feature_trace acc f) as Ht.
    destruct (extract_feature acc f) as [tf [e | acc']]; [discriminate H |].
    cbn [bind fst] in H, Ht.
    destruct (for_each layer extract_feature acc') as [t' r'] eqn:E.
    inversion H; subst. rewrite (IH _ _ _ E).
    cbn [filter]. destruct (has_geometry f); reflexivity.
Qed.

Lemma feature_loop_skips (layer : list Feature) :
  forall acc,
    snd (for_each layer extract_feature acc)
    = snd (for_each (filter polygonal layer) extract_feature acc).
Proof.
  induction layer as [| f layer IH]; intros acc; [reflexivity |].
  rewrite for_each_cons, result_bind. cbn [filter].
  pose proof (extract_feature_result acc f) as R.
  unfold polygonal, geometry_named.
  destruct (FeatureGeometry f) as [geom |].
  - destruct (String.eqb (GetGeometryName geom) "POLYGON") eqn:EP;
      cbn [orb].
    + rewrite for_each_cons, result_bind.
      destruct (snd (extract_feature acc f)); [reflexivity | apply IH].
    + destruct (String.eqb (GetGeometryName geom) "MULTIPOLYGON") eqn:EM.
      * rewrite for_each_cons, result_bind.
        destruct (snd (extract_feature acc f)); [reflexivity | apply IH].
      * rewrite R. apply IH.
  - rewrite R. apply IH.
Qed.

Lemma extract_polygon_length geom polygons polygons' :
  snd (extract_polygon geom polygons) = inr polygons' ->
  List.length polygons'
  = List.length polygons
    + match GetGeometryRef geom 0 with Some _ => 1 | None => 0 end.
Proof.
  unfold extract_polygon. destruct (GetGeometryRef geom 0).
  - rewrite result_bind. cbn. destruct (new_Polygon _); [discriminate |].
    cbn. intros H. inversion H. rewrite length_app. reflexivity.
  - cbn. intros H. inversion H. lia.
Qed.

Lemma extract_multipolygon_length geom polygons polygons' :
  snd (extract_multipolygon geom polygons) = inr polygons' ->
  List.length polygons' = List.length polygons + 1.
Proof.
  unfold extract_multipolygon. rewrite result_bind.
  destruct (snd (for_each _ _ _)); [discriminate |].
  cbn. intros H. inversion H. rewrite length_app. reflexivity.
Qed.

Lemma feature_loop_length (layer : list Feature) :
  forall acc polygons,
    snd (for_each layer extract_feature acc) = inr polygons ->
    List.length polygons
    = List.length acc + List.length (filter contributes layer).
Proof.
  induction layer as [| f layer IH]; intros acc polygons H.
  - cbn in H. inversion H. cbn. lia.
  - rewrite for_each_cons, result_bind in H.
    pose proof (extract_feature_result acc f) as R.
    destruct (snd (extract_feature acc f)) as [e | acc'] eqn:E;
      [discriminate H |].
    rewrite (IH _ _ H). cbn [filter]. unfold contributes.
    destruct (FeatureGeometry f) as [geom |].
    + destruct (String.eqb (GetGeometryName geom) "POLYGON").
      * symmetry in R. apply extract_polygon_length in R. rewrite R.
        destruct (GetGeometryRef geom 0); cbn [List.length]; lia.
      * destruct (String.eqb (GetGeometryName geom) "MULTIPOLYGON").
        -- symmetry in R. apply extract_multipolygon_length in R.
           rewrite R. cbn [List.length]. lia.
        -- inversion R; subst. lia.
    + inversion R; subst. lia.
Qed.

(** ** When the feature loop fails *)

Lemma new_Polygon_exn (coords : list coord) (e : exn) :
  new_Polygon coords = inl e ->
  e = ValueError linearring_error /\
  (List.length coords = 1 \/ List.length coords = 2).
Proof.
  unfold new_Polygon.
  destruct (List.length coords) as [| [| [| n]]]; intros H;
    try discriminate H; inversion H; split; auto.
Qed.

Lemma new_Polygon_short (ring : OGRGeometry) :
  short_ring ring ->
  new_Polygon (ring_coords ring) = inl (ValueError linearring_error).
Proof.
  unfold short_ring, new_Polygon. rewrite ring_coords_length.
  intros [-> | ->]; reflexivity.
Qed.

Lemma extract_polygon_exn geom polygons e :
  snd (extract_polygon geom polygons) = inl e ->
  e = ValueError linearring_error /\
  exists ring, GetGeometryRef geom 0 = Some ring /\ short_ring ring.
Proof.
  unfold extract_polygon.
  destruct (GetGeometryRef geom 0) as [ring |]; [| discriminate].
  rewrite result_bind. cbn [lift snd].
  destruct (new_Polygon (ring_coords ring)) as [e' | p] eqn:E;
    [| discriminate].
  intros H. inversion H; subst.
  destruct (new_Polygon_exn _ _ E) as [-> Hlen].
  rewrite ring_coords_length in Hlen.
  split; [reflexivity |]. exists ring. split; [reflexivity | exact Hlen].
Qed.

Lemma sub_polygon_loop_exn geom (l : list nat) :
  (forall i, In i l -> i < GetGeometryCount geom) ->
  forall acc e,
    snd (for_each l (extract_sub_polygon geom) acc) = inl e ->
    e = ValueError linearring_error /\
    exists i part ring,
      GetGeometryRef geom i = Some part /\
      GetGeometryRef part 0 = Some ring /\ short_ring ring.
Proof.
  induction l as [| j l IH]; intros Hl acc e H; [discriminate H |].
  rewrite for_each_cons, result_bind in H.
  assert (Hj : j < GetGeometryCount geom) by (apply Hl; left; reflexivity).
  assert (Hl' : forall i, In i l -> i < GetGeometryCount geom)
    by (intros i Hi; apply Hl; right; exact Hi).
  unfold extract_sub_polygon in H at 1.
  destruct (GetGeometryRef geom j) as [part |] eqn:Ep.
  - destruct (GetGeometryRef part 0) as [ring |] eqn:Er.
    + rewrite result_bind in H. cbn [lift snd] in H.
      destruct (new_Polygon (ring_coords ring)) as [e' | p] eqn:E.
      * inversion H; subst.
        destruct (new_Polygon_exn _ _ E) as [-> Hlen].
        rewrite ring_coords_length in Hlen.
        split; [reflexivity |]. exists j, part, ring. auto.
      * cbn [ret snd] in H. exact (IH Hl' _ _ H).
    + cbn [ret snd] in H. exact (IH Hl' _ _ H).
  - exfalso. destruct geom as [n ps ss]. cbn in Ep, Hj.
    apply nth_error_None in Ep. lia.
Qed.

Lemma sub_polygon_loop_short geom (l : list nat) :
  (forall i, In i l -> i < GetGeometryCount geom) ->
  (exists i part ring,
      In i l /\ GetGeometryRef geom i = Some part /\
      GetGeometryRef part 0 = Some ring /\ short_ring ring) ->
  forall acc,
    snd (for_each l (extract_sub_polygon geom) acc)
    = inl (ValueError linearring_error).
Proof.
  induction l as [| j l IH]; intros Hl [i [part [ring [Hi [Hp [Hr Hs]]]]]] acc.
  - destruct Hi.
  - rewrite for_each_cons, result_bind.
    destruct (snd (extract_sub_polygon geom acc j)) as [e | acc'] eqn:E.
    + assert (Hone : snd (for_each [j] (extract_sub_polygon geom) acc)
                     = inl e).
      { cbn [for_each]. rewrite result_bind, E. reflexivity. }
      apply sub_polygon_loop_exn in Hone.
      * destruct Hone as [-> _]. reflexivity.
      * intros k [<- | []]. apply Hl. left. reflexivity.
    + destruct Hi as [<- | Hi].
      * exfalso. unfold extract_sub_polygon in E. rewrite Hp, Hr in E.
        rewrite result_bind in E. cbn [lift snd] in E.
        rewrite (new_Polygon_short _ Hs) in E. discriminate E.
      * apply IH.
        -- intros k Hk. apply Hl. right. exact Hk.
        -- exists i, part, ring. auto.
Qed.

Lemma GetGeometryRef_in_range geom i part :
  GetGeometryRef geom i = Some part -> i < GetGeometryCount geom.
Proof.
  destruct geom as [n ps ss]. cbn. intros H.
  apply nth_error_Some. congruence.
Qed.

Lemma extract_feature_exn polygons f e :
  snd (extract_feature polygons f) = inl e ->
  e = ValueError linearring_error /\ has_short_ring f.
Proof.
  rewrite extract_feature_result. unfold has_short_ring.
  destruct (FeatureGeometry f) as [geom |]; [| discriminate].
  destruct (String.eqb (GetGeometryName geom) "POLYGON") eqn:EP.
  - intros H. apply extract_polygon_exn in H. destruct H as [-> Hr].
    split; [reflexivity |]. exists geom. split; [reflexivity |].
    left. split; [apply String.eqb_eq; exact EP | exact Hr].
  - destruct (String.eqb (GetGeometryName geom) "MULTIPOLYGON") eqn:EM;
      [| discriminate].
    unfold extract_multipolygon. rewrite result_bind.
    destruct (snd (for_each _ _ _)) as [e' | ps] eqn:E; [| discriminate].
    intros H. inversion H; subst.
    apply sub_polygon_loop_exn in E.
    + destruct E as [-> Hr]. split; [reflexivity |].
      exists geom. split; [reflexivity |].
      right. split; [apply String.eqb_eq; exact EM | exact Hr].
    + intros i Hi. apply in_seq in Hi. lia.
Qed.

Lemma extract_feature_short polygons f :
  has_short_ring f ->
  snd (extract_feature polygons f) = inl (ValueError linearring_error).
Proof.
  intros [geom [Hg [[Hn [ring [Hr Hs]]] | [Hn [i [part [ring [Hp [Hr Hs]]]]]]]]];
    rewrite extract_feature_result, Hg, Hn; cbn [String.eqb Ascii.eqb
      Bool.eqb].
  - unfold extract_polygon. rewrite Hr, result_bind. cbn [lift snd].
    rewrite (new_Polygon_short _ Hs). reflexivity.
  - unfold extract_multipolygon. rewrite result_bind.
    rewrite sub_polygon_loop_short; [reflexivity | |].
    + intros k Hk. apply in_seq in Hk. lia.
    + exists i, part, ring. repeat split; try assumption.
      apply in_seq. pose proof (GetGeometryRef_in_range _ _ _ Hp). lia.
Qed.

Lemma feature_loop_exn (layer : list Feature) :
  forall acc e,
    snd (for_each layer extract_feature acc) = inl e ->
    e = ValueError linearring_error /\ Exists has_short_ring layer.
Proof.
  induction layer as [| f layer IH]; intros acc e H; [discriminate H |].
  rewrite for_each_cons, result_bind in H.
  destruct (snd (extract_feature acc f)) as [e' | acc'] eqn:E.
  - inversion H; subst. apply extract_feature_exn in E.
    destruct E as [-> Hs]. split; [reflexivity | left; exact Hs].
  - destruct (IH _ _ H) as [-> Hex]. split; [reflexivity | right; exact Hex].
Qed.

Lemma feature_loop_short (layer : list Feature) :
  Exists has_short_ring layer ->
  forall acc,
    snd (for_each layer extract_feature acc)
    = inl (ValueError linearring_error).
Proof.
  induction 1 as [f layer Hs | f layer _ IH]; intros acc;
    rewrite for_each_cons, result_bind.
  - rewrite (extract_feature_short _ _ Hs). reflexivity.
  - destruct (snd (extract_feature acc f)) as [e | acc'] eqn:E.
    + apply extract_feature_exn in E. destruct E as [-> _]. reflexivity.
    + apply IH.
Qed.

(** ** extract_polygons_from_kml as a whole *)

Lemma extract_run {ogr : Ogr} (input_kml : string) (ds : DataSource)
    (layer : list Feature) :
  Open input_kml = Some ds ->
  GetLayer ds = Some layer ->
  extract_polygons_from_kml input_kml
  = (Print header_line
       :: fst (for_each layer extract_feature [])
       ++ match snd (for_each layer extract_feature []) with
          | inl _ => []
          | inr polygons => [Print (count_line (List.length polygons))]
          end,
     snd (for_each layer extract_feature [])).
Proof.
  intros Ho Hl. unfold extract_polygons_from_kml. rewrite Ho, Hl.
  destruct (for_each layer extract_feature []) as [t [e | polygons]];
    cbn -[String.append]; [rewrite app_nil_r |]; reflexivity.
Qed.

(** X1. When the file cannot be opened the run raises
    ValueError("Failed to open the KML file.") before anything is printed,
    computed or written. *)
Theorem X1_open_failure {shapely : Shapely} {ogr : Ogr} (input_kml : string) :
  Open input_kml = None ->
  extract_polygons_from_kml input_kml
    = ([], inl (ValueError "Failed to open the KML file.")) /\
  create_convex_hull input_kml
    = ([], inl (ValueError "Failed to open the KML file.")).
Proof.
  intros Ho.
  assert (E : extract_polygons_from_kml input_kml
              = ([], inl (ValueError "Failed to open the KML file."))).
  { unfold extract_polygons_from_kml. rewrite Ho. reflexivity. }
  split; [exact E | exact (create_convex_hull_exn _ _ _ E)].
Qed.

(** X2. A successful extraction prints the header, then one line per
    feature that has a geometry, in layer order (features without geometry
    print nothing), then the count line, whose number is the length of the
    collection returned. *)
Theorem X2_extraction_log {ogr : Ogr} (input_kml : string) (ds : DataSource)
    (layer : list Feature) (polygons : list Geometry) :
  Open input_kml = Some ds ->
  GetLayer ds = Some layer ->
  result_of (extract_polygons_from_kml input_kml) = inr polygons ->
  trace_of (extract_polygons_from_kml input_kml)
  = Print header_line
      :: map (fun f => Print (feature_line f)) (filter has_geometry layer)
      ++ [Print (count_line (List.length polygons))].
Proof.
  intros Ho Hl Hr. rewrite (extract_run _ _ _ Ho Hl) in *.
  unfold result_of, trace_of in *. cbn [fst snd] in *.
  destruct (for_each layer extract_feature []) as [t r] eqn:E.
  cbn [fst snd] in *. subst r.
  rewrite (feature_loop_log _ _ _ _ E). reflexivity.
Qed.

(** X3. Features without geometry and features whose geometry is neither a
    POLYGON nor a MULTIPOLYGON do not change the outcome of extraction:
    the file with and the file without them give the same collection, or
    the same exception. *)
Theorem X3_other_features_ignored (ogr1 ogr2 : Ogr) (path1 path2 : string)
    (ds1 ds2 : DataSource) (layer : list Feature) :
  @Open ogr1 path1 = Some ds1 -> GetLayer ds1 = Some layer ->
  @Open ogr2 path2 = Some ds2 -> GetLayer ds2 = Some (filter polygonal layer) ->
  result_of (@extract_polygons_from_kml ogr1 path1)
  = result_of (@extract_polygons_from_kml ogr2 path2).
Proof.
  intros Ho1 Hl1 Ho2 Hl2.
  rewrite (@extract_run ogr1 _ _ _ Ho1 Hl1), (@extract_run ogr2 _ _ _ Ho2 Hl2).
  unfold result_of. cbn [snd]. apply feature_loop_skips.
Qed.

(** X4. A successful extraction returns exactly one entry per contributing
    feature: a POLYGON that has an outer ring, or a MULTIPOLYGON (whatever
    its parts). *)
Theorem X4_collection_size {ogr : Ogr} (input_kml : string) (ds : DataSource)
    (layer : list Feature) (polygons : list Geometry) :
  Open input_kml = Some ds ->
  GetLayer ds = Some layer ->
  result_of (extract_polygons_from_kml input_kml) = inr polygons ->
  List.length polygons = List.length (filter contributes layer) /\
  List.length polygons <= List.length layer.
Proof.
  intros Ho Hl Hr. rewrite (extract_run _ _ _ Ho Hl) in Hr.
  unfold result_of in Hr. cbn [snd] in Hr.
  apply feature_loop_length in Hr. cbn [List.length plus] in Hr.
  split; [exact Hr |]. rewrite Hr. apply filter_length_le.
Qed.

(** X5. Extraction fails on a layer exactly when one of its features has a
    ring of one or two points (the outer ring of a POLYGON or of a part of
    a MULTIPOLYGON); the exception is then the ValueError of the polygon
    constructor. Extraction of an opened layer raises nothing else, in
    particular no AttributeError. *)
Theorem X5_extraction_fails_iff_short_ring {ogr : Ogr} (input_kml : string)
    (ds : DataSource) (layer : list Feature) :
  Open input_kml = Some ds ->
  GetLayer ds = Some layer ->
  (Exists has_short_ring layer ->
   result_of (extract_polygons_from_kml input_kml)
   = inl (ValueError linearring_error)) /\
  (forall e, result_of (extract_polygons_from_kml input_kml) = inl e ->
             e = ValueError linearring_error /\ Exists has_short_ring layer).
Proof.
  intros Ho Hl. rewrite (extract_run _ _ _ Ho Hl).
  unfold result_of. cbn [snd]. split.
  - intros Hex. apply feature_loop_short. exact Hex.
  - intros e He. exact (feature_loop_exn _ _ _ He).
Qed.

(** X6. One ring of one or two points anywhere in the layer loses the
    whole run: it raises the constructor's ValueError, the other polygons
    of the layer are never repaired, united or written, and the trace
    holds console lines only. *)
Theorem X6_short_ring_aborts_run {shapely : Shapely} {ogr : Ogr}
    (input_kml : string) (ds : DataSource) (layer : list Feature) :
  Open input_kml = Some ds ->
  GetLayer ds = Some layer ->
  Exists has_short_ring layer ->
  result_of (create_convex_hull input_kml)
    = inl (ValueError linearring_error) /\
  Forall printed (trace_of (create_convex_hull input_kml)).
Proof.
  intros Ho Hl Hex.
  pose proof (extract_printed input_kml) as P.
  destruct (extract_polygons_from_kml input_kml) as [t r] eqn:E.
  assert (Hr : r = inl (ValueError linearring_error)).
  { pose proof (extract_run _ _ _ Ho Hl) as R. rewrite E in R.
    inversion R. apply feature_loop_short. exact Hex. }
  subst r. rewrite (create_convex_hull_exn _ _ _ E).
  split; [reflexivity | exact P].
Qed.

(** ** What the loop builds *)

Lemma feature_loop_plain (layer : list Feature) :
  Forall plain_polygon layer ->
  forall acc,
    snd (for_each layer extract_feature acc)
    = inr (acc ++ map feature_polygon layer).
Proof.
  induction 1 as [| f layer Hf _ IH]; intros acc.
  - cbn. rewrite app_nil_r. reflexivity.
  - destruct Hf as [geom [ring [Hg [Hn [Hr Ha]]]]].
    rewrite for_each_cons, result_bind, extract_feature_result, Hg, Hn.
    cbn [String.eqb Ascii.eqb Bool.eqb].
    unfold extract_polygon. rewrite Hr, result_bind. cbn [lift snd].
    rewrite new_Polygon_ok by (rewrite ring_coords_length; exact Ha).
    cbn [ret snd]. rewrite IH. cbn [map].
    unfold feature_polygon at 2. rewrite Hg, Hr.
    unfold ring_polygon. rewrite ring_coords_xy, <- app_assoc. reflexivity.
Qed.

Lemma sub_polygon_loop_members (name : string) (pts : list OGRPoint)
    (rest : list OGRGeometry) :
  (forall part ring,
      In part rest -> GetGeometryRef part 0 = Some ring -> acceptable_ring ring) ->
  forall done acc,
    for_each (seq (List.length done) (List.length rest))
             (extract_sub_polygon (OGRGeom name pts (done ++ rest))) acc
    = ([], inr (acc ++ flat_map part_polygons rest)).
Proof.
  induction rest as [| p rest IH]; intros Hok done acc.
  - cbn. rewrite app_nil_r. reflexivity.
  - cbn [List.length seq]. rewrite for_each_cons.
    unfold extract_sub_polygon at 1. cbn [GetGeometryRef].
    rewrite nth_error_app2 by lia. rewrite Nat.sub_diag. cbn [nth_error].
    assert (Hrest : forall part ring, In part rest ->
              GetGeometryRef part 0 = Some ring -> acceptable_ring ring).
    { intros part ring Hin. apply Hok. right. exact Hin. }
    assert (Hstep : forall acc',
      for_each (seq (S (List.length done)) (List.length rest))
        (extract_sub_polygon (OGRGeom name pts (done ++ p :: rest))) acc'
      = ([], inr (acc' ++ flat_map part_polygons rest))).
    { intros acc'. specialize (IH Hrest (done ++ [p]) acc').
      rewrite length_app in IH. cbn [List.length] in IH.
      rewrite Nat.add_1_r, <- app_assoc in IH. exact IH. }
    cbn [flat_map]. unfold part_polygons at 1.
    destruct (GetGeometryRef p 0) as [ring |] eqn:Er.
    + assert (Ha : acceptable_ring ring)
        by (apply (Hok p ring); [left; reflexivity | exact Er]).
      assert (Hnew : new_Polygon (ring_coords ring)
                     = inr (Polygon (close_ring (ring_coords ring)) [])).
      { apply new_Polygon_ok. rewrite ring_coords_length. exact Ha. }
      rewrite Hnew. cbn [lift bind ret app]. rewrite Hstep.
      unfold ring_polygon. rewrite ring_coords_xy, <- app_assoc. reflexivity.
    + cbn [bind ret]. rewrite Hstep. reflexivity.
Qed.

(** X7. For a MULTIPOLYGON whose outer rings are all acceptable (no point,
    or at least three), the loop over its parts appends one MultiPolygon
    whose members are the polygons of the closed outer rings of the parts,
    in part order; a part without outer ring gives no member, a part whose
    outer ring has no point gives an empty polygon that the MultiPolygon
    constructor leaves out, and inner rings are not read. *)
Theorem X7_multipolygon_members (name : string) (pts : list OGRPoint)
    (parts : list OGRGeometry) (polygons : list Geometry) :
  (forall part ring,
      In part parts -> GetGeometryRef part 0 = Some ring ->
      acceptable_ring ring) ->
  extract_multipolygon (OGRGeom name pts parts) polygons
  = ([], inr (polygons
                ++ [MultiPolygon
                      (filter (fun p => negb (is_empty p))
                              (flat_map part_polygons parts))])).
Proof.
  intros Hok. unfold extract_multipolygon. cbn [GetGeometryCount].
  pose proof (sub_polygon_loop_members name pts parts Hok [] []) as L.
  cbn [List.length app] in L. rewrite L. reflexivity.
Qed.

(** X8. On a layer made of POLYGON features with acceptable outer rings,
    extraction succeeds and returns one polygon per feature, in layer
    order, each holding the (x, y) pairs of the outer ring of its feature,
    closed by the constructor, and no hole. *)
Theorem X8_polygons_in_layer_order {ogr : Ogr} (input_kml : string)
    (ds : DataSource) (layer : list Feature) :
  Open input_kml = Some ds ->
  GetLayer ds = Some layer ->
  Forall plain_polygon layer ->
  result_of (extract_polygons_from_kml input_kml)
  = inr (map feature_polygon layer).
Proof.
  intros Ho Hl Hall. rewrite (extract_run _ _ _ Ho Hl).
  unfold result_of. cbn [snd].
  rewrite (feature_loop_plain _ Hall). reflexivity.
Qed.

(** * Further properties of the orchestrator and the writer *)

Lemma filter_none {A} (c : A -> bool) (l : list A) :
  Forall (fun x => c x = false) l -> filter c l = [].
Proof.
  induction 1 as [| x l Hx _ IH]; [reflexivity |].
  cbn. rewrite Hx. exact IH.
Qed.

Section Writer.
Context {shapely : Shapely} {ogr : Ogr}.

Lemma write_hull_run (input_kml : string) (hull : Geometry) :
  write_hull input_kml hull =
  if CreateDataSource (output_path input_kml) then
    if CreateLayer (output_path input_kml) "Convex_Hull" then
      match CreateGeometryFromWkt (wkt hull) with
      | Some hull_geom =>
          ([DoCreateDataSource (output_path input_kml);
            DoCreateLayer (output_path input_kml) "Convex_Hull";
            DoCreateFeature (output_path input_kml) hull_geom;
            Print (saved_prefix ++ output_path input_kml)%string], inr tt)
      | None =>
          ([DoCreateDataSource (output_path input_kml);
            DoCreateLayer (output_path input_kml) "Convex_Hull";
            Print "Failed to create convex hull geometry!"], inr tt)
      end
    else
      ([DoCreateDataSource (output_path input_kml);
        DoCreateLayer (output_path input_kml) "Convex_Hull"],
       inl AttributeError)
  else ([DoCreateDataSource (output_path input_kml)], inl AttributeError).
Proof.
  unfold write_hull, output_path.
  destruct (CreateDataSource _); [| reflexivity].
  destruct (CreateLayer _ _); [| reflexivity].
  destruct (CreateGeometryFromWkt _); reflexivity.
Qed.

Lemma extract_trace_Forall (P : event -> Prop) (input_kml : string) :
  P (Print header_line) ->
  (forall f, has_geometry f = true -> P (Print (feature_line f))) ->
  (forall k, P (Print (count_line k))) ->
  Forall P (trace_of (extract_polygons_from_kml input_kml)).
Proof.
  intros Hh Hf Hc. unfold trace_of, extract_polygons_from_kml.
  destruct (Open input_kml) as [ds |]; [| constructor].
  destruct (GetLayer ds) as [layer |].
  - apply bind_trace_Forall; [repeat constructor; exact Hh | intros _].
    apply bind_trace_Forall.
    + apply for_each_trace_Forall. intros acc f.
      rewrite extract_feature_trace.
      destruct (has_geometry f) eqn:E; repeat constructor. apply Hf, E.
    + intros polygons. apply bind_trace_Forall; repeat constructor.
      apply Hc.
  - apply bind_trace_Forall; repeat constructor. exact Hh.
Qed.

Lemma feature_line_not_saved (f : Feature) :
  has_geometry f = true -> is_saved_line (Print (feature_line f)) = false.
Proof.
  unfold has_geometry, feature_line.
  destruct (FeatureGeometry f); [reflexivity | discriminate].
Qed.

Lemma extract_no_saved_line (input_kml : string) :
  Forall (fun e => is_saved_line e = false)
         (trace_of (extract_polygons_from_kml input_kml)).
Proof.
  apply extract_trace_Forall.
  - reflexivity.
  - apply feature_line_not_saved.
  - intros k. reflexivity.
Qed.

Lemma extract_class_none (c : event -> bool) (input_kml : string) :
  (forall s, c (Print s) = false) ->
  filter c (trace_of (extract_polygons_from_kml input_kml)) = [].
Proof.
  intros Hc. apply filter_none.
  eapply Forall_impl; [| apply extract_printed].
  intros e He. destruct e; try discriminate He. apply Hc.
Qed.

Lemma fix_trace_buffers (kept : list Geometry) :
  filter is_buffer_event (flat_map fix_trace kept)
  = map CallBuffer0 (filter (fun p => negb (is_valid p)) kept).
Proof.
  induction kept as [| p kept IH]; [reflexivity |].
  cbn [flat_map filter]. rewrite filter_app, IH.
  unfold fix_trace. destruct (is_valid p); reflexivity.
Qed.

Lemma fix_trace_class_none (c : event -> bool) (kept : list Geometry) :
  (forall s, c (Print s) = false) ->
  (forall g, c (CallBuffer0 g) = false) ->
  filter c (flat_map fix_trace kept) = [].
Proof.
  intros Hp Hb. induction kept as [| p kept IH]; [reflexivity |].
  cbn [flat_map]. rewrite filter_app, IH, app_nil_r.
  unfold fix_trace. destruct (is_valid p); [reflexivity |].
  cbn. rewrite Hp, Hb. reflexivity.
Qed.

Lemma fix_trace_no_saved_line (kept : list Geometry) :
  filter is_saved_line (flat_map fix_trace kept) = [].
Proof.
  induction kept as [| p kept IH]; [reflexivity |].
  cbn [flat_map]. rewrite filter_app, IH, app_nil_r.
  unfold fix_trace. destruct (is_valid p); reflexivity.
Qed.

Lemma extract_exn_cases (input_kml : string) (t : list event) (e : exn) :
  extract_polygons_from_kml input_kml = (t, inl e) ->
  e = ValueError "Failed to open the KML file." \/
  e = TypeError \/
  e = ValueError linearring_error.
Proof.
  unfold extract_polygons_from_kml.
  destruct (Open input_kml) as [ds |].
  - destruct (GetLayer ds) as [layer |].
    + intros H. right. right.
      assert (Hs : snd (for_each layer extract_feature []) = inl e).
      { destruct (for_each layer extract_feature []) as [tl [e' | ps]];
          cbn -[String.append] in H; inversion H; reflexivity. }
      exact (proj1 (feature_loop_exn _ _ _ Hs)).
    + cbn -[String.append]. intros H. inversion H. auto.
  - intros H. inversion H. auto.
Qed.

End Writer.

Lemma prefix_append (p s : string) : String.prefix p (p ++ s)%string = true.
Proof.
  induction p as [| a p IH]; cbn.
  - destruct s; reflexivity.
  - destruct (ascii_dec a a) as [_ | Hne]; [exact IH | contradiction].
Qed.

Lemma saved_line_is_saved (s : string) :
  is_saved_line (Print (saved_prefix ++ s)%string) = true.
Proof. unfold is_saved_line. apply prefix_append. Qed.

Section Pipeline.
Context {shapely : Shapely} {ogr : Ogr}.

Lemma is_nil_true {A} (l : list A) : is_nil l = true -> l = [].
Proof. destruct l; [reflexivity | discriminate]. Qed.

Lemma is_nil_false {A} (l : list A) : is_nil l = false -> l <> [].
Proof. destruct l; [discriminate | intros _ H; discriminate H]. Qed.

(** How a run ends, seen through its writer calls, its closing line and
    its result. *)
Lemma run_summary (input_kml : string) :
  let tr := trace_of (create_convex_hull input_kml) in
  let r := result_of (create_convex_hull input_kml) in
  let out := output_path input_kml in
  (filter is_writer_event tr = [] /\ filter is_saved_line tr = [] /\
   r <> inl AttributeError) \/
  (exists t polygons,
     extract_polygons_from_kml input_kml = (t, inr polygons) /\
     map fixed (filter keep polygons) <> [] /\
     is_empty (hull_of polygons) = false /\
     ((CreateDataSource out = false /\
       filter is_writer_event tr = [DoCreateDataSource out] /\
       filter is_saved_line tr = [] /\ r = inl AttributeError) \/
      (CreateDataSource out = true /\ CreateLayer out "Convex_Hull" = false /\
       filter is_writer_event tr
         = [DoCreateDataSource out; DoCreateLayer out "Convex_Hull"] /\
       filter is_saved_line tr = [] /\ r = inl AttributeError) \/
      (CreateDataSource out = true /\ CreateLayer out "Convex_Hull" = true /\
       CreateGeometryFromWkt (wkt (hull_of polygons)) = None /\
       filter is_writer_event tr
         = [DoCreateDataSource out; DoCreateLayer out "Convex_Hull"] /\
       filter is_saved_line tr = [] /\ r = inr tt /\
       In (Print "Failed to create convex hull geometry!") tr) \/
      (exists g,
         CreateDataSource out = true /\ CreateLayer out "Convex_Hull" = true /\
         CreateGeometryFromWkt (wkt (hull_of polygons)) = Some g /\
         filter is_writer_event tr
           = [DoCreateDataSource out; DoCreateLayer out "Convex_Hull";
              DoCreateFeature out g] /\
         filter is_saved_line tr = [Print (saved_prefix ++ out)%string] /\
         r = inr tt))).
Proof.
  cbv zeta.
  pose proof (extract_class_none is_writer_event input_kml
                (fun _ => eq_refl)) as Hw.
  pose proof (filter_none _ _ (extract_no_saved_line input_kml)) as Hs.
  destruct (extract_polygons_from_kml input_kml) as [t [e | polygons]] eqn:H;
    unfold trace_of in Hw, Hs; cbn [fst] in Hw, Hs.
  - left. rewrite (create_convex_hull_exn _ _ _ H).
    unfold trace_of, result_of. cbn [fst snd].
    split; [exact Hw |]. split; [exact Hs |].
    destruct (extract_exn_cases _ _ _ H) as [-> | [-> | ->]]; discriminate.
  - pose proof (fix_trace_class_none is_writer_event (filter keep polygons)
                  (fun _ => eq_refl) (fun _ => eq_refl)) as Fw.
    pose proof (fix_trace_no_saved_line (filter keep polygons)) as Fs.
    rewrite (create_convex_hull_ok _ _ _ H). cbv zeta.
    fold (hull_of polygons).
    destruct (is_nil polygons) eqn:Hn.
    { left. unfold trace_of, result_of. cbn [fst snd].
      rewrite !filter_app, Hw, Hs. repeat split; try reflexivity.
      discriminate. }
    destruct (is_nil (map fixed (filter keep polygons))) eqn:Hv.
    { left. unfold trace_of, result_of. cbn [fst snd].
      rewrite !filter_app, Hw, Hs, Fw, Fs. repeat split; try reflexivity.
      discriminate. }
    destruct (is_empty (hull_of polygons)) eqn:He.
    { left. unfold trace_of, result_of. cbn [fst snd].
      rewrite !filter_app, Hw, Hs, Fw, Fs. repeat split; try reflexivity.
      discriminate. }
    right. exists t, polygons. split; [reflexivity |].
    split; [exact (is_nil_false _ Hv) |]. split; [exact He |].
    rewrite write_hull_run. unfold trace_of, result_of.
    destruct (CreateDataSource (output_path input_kml)) eqn:Ed.
    + destruct (CreateLayer (output_path input_kml) "Convex_Hull") eqn:El.
      * destruct (CreateGeometryFromWkt (wkt (hull_of polygons)))
          as [g |] eqn:Eg.
        -- right. right. right. exists g. cbn [fst snd].
           rewrite !filter_app, Hw, Hs, Fw, Fs.
           repeat split; try reflexivity.
           cbn [filter app]. rewrite saved_line_is_saved. reflexivity.
        -- right. right. left. cbn [fst snd].
           rewrite !filter_app, Hw, Hs, Fw, Fs.
           repeat split; try reflexivity.
           apply in_or_app; right. apply in_or_app; right.
           apply in_or_app; right. cbn. tauto.
      * right. left. cbn [fst snd].
        rewrite !filter_app, Hw, Hs, Fw, Fs. repeat split; reflexivity.
    + left. cbn [fst snd].
      rewrite !filter_app, Hw, Hs, Fw, Fs. repeat split; reflexivity.
Qed.

End Pipeline.

Section Outcomes.
Context {shapely : Shapely} {ogr : Ogr}.

Lemma in_filter_writer (e : event) (tr : list event) :
  In e tr -> is_writer_event e = true -> In e (filter is_writer_event tr).
Proof. intros Hin He. apply filter_In. split; assumption. Qed.

(** X9. The writer is used in one fixed order and at most once per step:
    the writer calls of any run are a prefix of "create the data source at
    <root>_convex_hull.kml, create the layer Convex_Hull in it, create one
    feature in it". *)
Theorem X9_writer_calls_in_order (input_kml : string) :
  let ws := filter is_writer_event (trace_of (create_convex_hull input_kml)) in
  let out := output_path input_kml in
  ws = [] \/
  ws = [DoCreateDataSource out] \/
  ws = [DoCreateDataSource out; DoCreateLayer out "Convex_Hull"] \/
  exists g, ws = [DoCreateDataSource out; DoCreateLayer out "Convex_Hull";
                  DoCreateFeature out g].
Proof.
  cbv zeta. pose proof (run_summary input_kml) as S. cbv zeta in S.
  destruct S as [[Hw _] | [t [polygons [_ [_ [_ S]]]]]]; [left; exact Hw |].
  destruct S as [[_ [Hw _]] | [[_ [_ [Hw _]]] | [[_ [_ [_ [Hw _]]]] | S]]].
  - right. left. exact Hw.
  - right. right. left. exact Hw.
  - right. right. left. exact Hw.
  - destruct S as [g [_ [_ [_ [Hw _]]]]]. right. right. right.
    exists g. exact Hw.
Qed.

(** X10. Whatever feature is created carries the OGR geometry parsed from
    the WKT text of the hull of the union of the kept and repaired
    polygons, that hull is not empty, and the feature goes to
    <root>_convex_hull.kml. *)
Theorem X10_feature_is_the_hull (input_kml path : string) (g : OGRGeometry) :
  In (DoCreateFeature path g) (trace_of (create_convex_hull input_kml)) ->
  path = output_path input_kml /\
  exists t polygons,
    extract_polygons_from_kml input_kml = (t, inr polygons) /\
    is_empty (hull_of polygons) = false /\
    CreateGeometryFromWkt (wkt (hull_of polygons)) = Some g.
Proof.
  intros Hin. apply in_filter_writer in Hin; [| reflexivity].
  pose proof (run_summary input_kml) as S. cbv zeta in S.
  destruct S as [[Hw _] | [t [polygons [He [_ [Hh S]]]]]].
  { rewrite Hw in Hin. destruct Hin. }
  destruct S as [[_ [Hw _]] | [[_ [_ [Hw _]]] | [[_ [_ [_ [Hw _]]]] | S]]];
    try (rewrite Hw in Hin; cbn in Hin;
         repeat (destruct Hin as [Hin | Hin]; [discriminate Hin |]);
         destruct Hin).
  destruct S as [g' [_ [_ [Hg [Hw _]]]]]. rewrite Hw in Hin. cbn in Hin.
  destruct Hin as [Hin | [Hin | [Hin | []]]]; try discriminate Hin.
  inversion Hin; subst. split; [reflexivity |].
  exists t, polygons. auto.
Qed.

(** X11. The closing line "Convex hull KML saved to: <path>" is printed
    exactly when a feature has been handed to the writer: then it is
    printed once, names the path the writer used and the run returns
    normally; otherwise no line starting that way is printed and no
    feature is created. *)
Theorem X11_saved_line_iff_feature (input_kml : string) :
  let tr := trace_of (create_convex_hull input_kml) in
  let out := output_path input_kml in
  (filter is_saved_line tr = [Print (saved_prefix ++ out)%string] /\
   result_of (create_convex_hull input_kml) = inr tt /\
   exists g, In (DoCreateFeature out g) tr) \/
  (filter is_saved_line tr = [] /\
   forall path g, ~ In (DoCreateFeature path g) tr).
Proof.
  cbv zeta. pose proof (run_summary input_kml) as S. cbv zeta in S.
  assert (No : forall ws,
            filter is_writer_event (trace_of (create_convex_hull input_kml))
            = ws ->
            (forall path g, ~ In (DoCreateFeature path g) ws) ->
            forall path g,
              ~ In (DoCreateFeature path g)
                   (trace_of (create_convex_hull input_kml))).
  { intros ws Hws Hno path g Hin.
    apply in_filter_writer in Hin; [| reflexivity].
    rewrite Hws in Hin. exact (Hno _ _ Hin). }
  destruct S as [[Hw [Hs _]] | [t [polygons [_ [_ [_ S]]]]]].
  { right. split; [exact Hs |]. apply (No _ Hw). intros path g []. }
  destruct S as [[_ [Hw [Hs _]]] | [[_ [_ [Hw [Hs _]]]] |
                 [[_ [_ [_ [Hw [Hs _]]]]] | S]]];
    try (right; split; [exact Hs |]; apply (No _ Hw); intros path g Hin;
         cbn in Hin;
         repeat (destruct Hin as [Hin | Hin]; [discriminate Hin |]);
         exact Hin).
  destruct S as [g [_ [_ [_ [Hw [Hs Hr]]]]]]. left.
  split; [exact Hs |]. split; [exact Hr |]. exists g.
  assert (Hin : In (DoCreateFeature (output_path input_kml) g)
                   (filter is_writer_event
                      (trace_of (create_convex_hull input_kml)))).
  { rewrite Hw. cbn. tauto. }
  apply filter_In in Hin. exact (proj1 Hin).
Qed.

(** X12. An AttributeError comes from the writer only: when the run
    raises it, the creation of the output data source has been called,
    the data source or the layer could not be created, and no feature
    has been created. Every other exception is raised before any writer
    call. *)
Theorem X12_exceptions_by_stage (input_kml : string) (e : exn) :
  result_of (create_convex_hull input_kml) = inl e ->
  let tr := trace_of (create_convex_hull input_kml) in
  let out := output_path input_kml in
  (e = AttributeError /\
   In (DoCreateDataSource out) tr /\
   (CreateDataSource out = false \/ CreateLayer out "Convex_Hull" = false) /\
   forall path g, ~ In (DoCreateFeature path g) tr) \/
  (e <> AttributeError /\ filter is_writer_event tr = []).
Proof.
  intros Hr. cbv zeta. pose proof (run_summary input_kml) as S.
  cbv zeta in S. rewrite Hr in S.
  assert (Sub : forall ws x,
            filter is_writer_event (trace_of (create_convex_hull input_kml))
            = ws -> In x ws ->
            In x (trace_of (create_convex_hull input_kml))).
  { intros ws x Hws Hx. rewrite <- Hws in Hx. apply filter_In in Hx.
    exact (proj1 Hx). }
  assert (No : forall ws,
            filter is_writer_event (trace_of (create_convex_hull input_kml))
            = ws ->
            (forall path g, ~ In (DoCreateFeature path g) ws) ->
            forall path g,
              ~ In (DoCreateFeature path g)
                   (trace_of (create_convex_hull input_kml))).
  { intros ws Hws Hno path g Hin.
    apply in_filter_writer in Hin; [| reflexivity].
    rewrite Hws in Hin. exact (Hno _ _ Hin). }
  destruct S as [[Hw [_ Hne]] | [t [polygons [_ [_ [_ S]]]]]].
  { right. split; [| exact Hw]. intros ->. apply Hne. reflexivity. }
  destruct S as [[Hd [Hw [_ He]]] | [[_ [Hl [Hw [_ He]]]] |
                 [[_ [_ [_ [_ [_ [He _]]]]]] | S]]].
  - left. inversion He; subst. split; [reflexivity |].
    split; [apply (Sub _ _ Hw); left; reflexivity |].
    split; [left; exact Hd |].
    apply (No _ Hw). intros path g Hin. cbn in Hin.
    repeat (destruct Hin as [Hin | Hin]; [discriminate Hin |]). exact Hin.
  - left. inversion He; subst. split; [reflexivity |].
    split; [apply (Sub _ _ Hw); left; reflexivity |].
    split; [right; exact Hl |].
    apply (No _ Hw). intros path g Hin. cbn in Hin.
    repeat (destruct Hin as [Hin | Hin]; [discriminate Hin |]). exact Hin.
  - discriminate He.
  - destruct S as [g [_ [_ [_ [_ [_ He]]]]]]. discriminate He.
Qed.

End Outcomes.

Section GeometryCalls.
Context {shapely : Shapely} {ogr : Ogr}.

Lemma write_hull_class_none (c : event -> bool) (input_kml : string)
    (hull : Geometry) :
  (forall s, c (Print s) = false) ->
  (forall p, c (DoCreateDataSource p) = false) ->
  (forall p n, c (DoCreateLayer p n) = false) ->
  (forall p g, c (DoCreateFeature p g) = false) ->
  filter c (fst (write_hull input_kml hull)) = [].
Proof.
  intros Hp Hd Hl Hf. rewrite write_hull_run.
  destruct (CreateDataSource _); [| cbn; rewrite Hd; reflexivity].
  destruct (CreateLayer _ _); [| cbn; rewrite Hd, Hl; reflexivity].
  destruct (CreateGeometryFromWkt _); cbn [fst filter];
    rewrite ?Hd, ?Hl, ?Hf, ?Hp; reflexivity.
Qed.

Lemma buffer_calls (input_kml : string) (t : list event)
    (polygons : list Geometry) :
  extract_polygons_from_kml input_kml = (t, inr polygons) ->
  filter is_buffer_event (trace_of (create_convex_hull input_kml))
  = map CallBuffer0 (filter (fun p => negb (is_valid p)) (filter keep polygons)).
Proof.
  intros H.
  pose proof (extract_class_none is_buffer_event input_kml
                (fun _ => eq_refl)) as Ht.
  rewrite H in Ht. unfold trace_of in Ht. cbn [fst] in Ht.
  pose proof (fix_trace_buffers (filter keep polygons)) as Hf.
  rewrite (create_convex_hull_ok _ _ _ H). cbv zeta. unfold trace_of.
  destruct (is_nil polygons) eqn:Hn.
  { apply is_nil_true in Hn. subst polygons. cbn [fst].
    rewrite filter_app, Ht. reflexivity. }
  destruct (is_nil (map fixed (filter keep polygons))) eqn:Hv.
  { cbn [fst]. rewrite !filter_app, Ht, Hf. cbn. apply app_nil_r. }
  destruct (is_empty _).
  { cbn [fst]. rewrite !filter_app, Ht, Hf. cbn. apply app_nil_r. }
  cbn [fst]. rewrite !filter_app, Ht, Hf.
  rewrite write_hull_class_none; try (intros; reflexivity).
  cbn. apply app_nil_r.
Qed.

Lemma geometry_calls (input_kml : string) (t : list event)
    (polygons : list Geometry) :
  extract_polygons_from_kml input_kml = (t, inr polygons) ->
  filter is_geometry_call (trace_of (create_convex_hull input_kml))
  = if is_nil (map fixed (filter keep polygons)) then []
    else [CallUnaryUnion (map fixed (filter keep polygons));
          CallConvexHull (unary_union (map fixed (filter keep polygons)))].
Proof.
  intros H.
  pose proof (extract_class_none is_geometry_call input_kml
                (fun _ => eq_refl)) as Ht.
  rewrite H in Ht. unfold trace_of in Ht. cbn [fst] in Ht.
  pose proof (fix_trace_class_none is_geometry_call (filter keep polygons)
                (fun _ => eq_refl) (fun _ => eq_refl)) as Hf.
  rewrite (create_convex_hull_ok _ _ _ H). cbv zeta. unfold trace_of.
  destruct (is_nil polygons) eqn:Hn.
  { apply is_nil_true in Hn. subst polygons. cbn [fst].
    rewrite filter_app, Ht. reflexivity. }
  destruct (is_nil (map fixed (filter keep polygons))) eqn:Hv.
  { cbn [fst]. rewrite !filter_app, Ht, Hf. reflexivity. }
  destruct (is_empty _).
  { cbn [fst]. rewrite !filter_app, Ht, Hf. reflexivity. }
  cbn [fst]. rewrite !filter_app, Ht, Hf.
  rewrite write_hull_class_none; intros; reflexivity.
Qed.

Lemma geometry_calls_exn (c : event -> bool) (input_kml : string)
    (t : list event) (e : exn) :
  (forall s, c (Print s) = false) ->
  extract_polygons_from_kml input_kml = (t, inl e) ->
  filter c (trace_of (create_convex_hull input_kml)) = [].
Proof.
  intros Hc H. rewrite (create_convex_hull_exn _ _ _ H).
  pose proof (extract_class_none c input_kml Hc) as Ht.
  rewrite H in Ht. exact Ht.
Qed.

(** X13. The zero-distance buffer is applied to exactly the extracted
    geometries that are Polygon instances, are not empty and are invalid,
    once each and in collection order; valid polygons are never buffered,
    and nothing is buffered when extraction fails. *)
Theorem X13_buffer_calls (input_kml : string) :
  filter is_buffer_event (trace_of (create_convex_hull input_kml))
  = match result_of (extract_polygons_from_kml input_kml) with
    | inl _ => []
    | inr polygons =>
        map CallBuffer0
            (filter (fun p => negb (is_valid p)) (filter keep polygons))
    end.
Proof.
  destruct (extract_polygons_from_kml input_kml) as [t [e | polygons]] eqn:H;
    unfold result_of; cbn [snd].
  - apply (geometry_calls_exn _ _ _ _ (fun _ => eq_refl) H).
  - apply (buffer_calls _ _ _ H).
Qed.

(** X14. A run computes the union at most once and the hull at most once,
    the hull on the result of that union and right after it; both are
    computed exactly when extraction succeeds and at least one polygon is
    kept. *)
Theorem X14_union_then_hull_once (input_kml : string) :
  filter is_geometry_call (trace_of (create_convex_hull input_kml))
  = match result_of (extract_polygons_from_kml input_kml) with
    | inl _ => []
    | inr polygons =>
        if is_nil (map fixed (filter keep polygons)) then []
        else [CallUnaryUnion (map fixed (filter keep polygons));
              CallConvexHull (unary_union (map fixed (filter keep polygons)))]
    end.
Proof.
  destruct (extract_polygons_from_kml input_kml) as [t [e | polygons]] eqn:H;
    unfold result_of; cbn [snd].
  - apply (geometry_calls_exn _ _ _ _ (fun _ => eq_refl) H).
  - apply (geometry_calls _ _ _ H).
Qed.

(** X15. Provided the zero-distance buffer returns a valid geometry, every
    geometry handed to the union is valid. *)
Theorem X15_union_inputs_valid (input_kml : string) (gs : list Geometry) :
  (forall g, is_valid (buffer0 g) = true) ->
  In (CallUnaryUnion gs) (trace_of (create_convex_hull input_kml)) ->
  Forall (fun g => is_valid g = true) gs.
Proof.
  intros Hbuf Hin.
  assert (Hf : In (CallUnaryUnion gs)
                  (filter is_geometry_call
                     (trace_of (create_convex_hull input_kml)))).
  { apply filter_In. split; [exact Hin | reflexivity]. }
  destruct (extract_polygons_from_kml input_kml) as [t [e | polygons]] eqn:H.
  - rewrite (geometry_calls_exn _ _ _ _ (fun _ => eq_refl) H) in Hf.
    destruct Hf.
  - rewrite (geometry_calls _ _ _ H) in Hf.
    destruct (is_nil _); [destruct Hf |].
    destruct Hf as [Hf | [Hf | []]]; [| discriminate Hf].
    inversion Hf; subst. apply Forall_forall. intros g Hg.
    apply in_map_iff in Hg. destruct Hg as [p [<- _]].
    unfold fixed. destruct (is_valid p) eqn:Hp; [exact Hp | apply Hbuf].
Qed.

(** X16. When polygons were kept but the hull of their union is empty,
    the run prints "Error: Convex hull calculation resulted in an empty
    geometry." as its last line and returns normally: no exception, and
    no writer call. *)
Theorem X16_empty_hull_stops (input_kml : string) (t : list event)
    (polygons : list Geometry) :
  extract_polygons_from_kml input_kml = (t, inr polygons) ->
  map fixed (filter keep polygons) <> [] ->
  is_empty (hull_of polygons) = true ->
  create_convex_hull input_kml
  = (t ++ flat_map fix_trace (filter keep polygons)
       ++ [CallUnaryUnion (map fixed (filter keep polygons));
           CallConvexHull (unary_union (map fixed (filter keep polygons)));
           Print "Error: Convex hull calculation resulted in an empty geometry."],
     inr tt) /\
  filter is_writer_event (trace_of (create_convex_hull input_kml)) = [].
Proof.
  intros H Hv He.
  assert (E : create_convex_hull input_kml
    = (t ++ flat_map fix_trace (filter keep polygons)
         ++ [CallUnaryUnion (map fixed (filter keep polygons));
             CallConvexHull (unary_union (map fixed (filter keep polygons)));
             Print "Error: Convex hull calculation resulted in an empty geometry."],
       inr tt)).
  { rewrite (create_convex_hull_ok _ _ _ H). cbv zeta.
    fold (hull_of polygons). rewrite He.
    destruct polygons as [| p ps]; [exfalso; apply Hv; reflexivity |].
    cbn [is_nil].
    destruct (map fixed (filter keep (p :: ps))) eqn:Em;
      [exfalso; apply Hv; reflexivity |].
    reflexivity. }
  split; [exact E |]. rewrite E. unfold trace_of. cbn [fst].
  pose proof (extract_class_none is_writer_event input_kml
                (fun _ => eq_refl)) as Ht.
  rewrite H in Ht. unfold trace_of in Ht. cbn [fst] in Ht.
  rewrite !filter_app, Ht.
  rewrite (fix_trace_class_none is_writer_event _
             (fun _ => eq_refl) (fun _ => eq_refl)).
  reflexivity.
Qed.

Lemma keep_plain (layer : list Feature) :
  (forall f, In f layer -> is_empty (feature_polygon f) = false) ->
  filter keep (map feature_polygon layer) = map feature_polygon layer.
Proof.
  induction layer as [| f layer IH]; intros Hne; [reflexivity |].
  cbn [map filter]. unfold keep at 1.
  rewrite (Hne f (or_introl eq_refl)).
  assert (Hi : isinstance_Polygon (feature_polygon f) = true).
  { unfold feature_polygon. destruct (FeatureGeometry f) as [geom |];
      [destruct (GetGeometryRef geom 0) |]; reflexivity. }
  rewrite Hi. cbn [andb negb]. f_equal. apply IH.
  intros g Hg. apply Hne. right. exact Hg.
Qed.

Lemma fixed_valid (ps : list Geometry) :
  Forall (fun p => is_valid p = true) ps ->
  map fixed ps = ps /\ filter (fun p => negb (is_valid p)) ps = [].
Proof.
  induction 1 as [| p ps Hp _ [IH1 IH2]]; [split; reflexivity |].
  cbn [map filter]. unfold fixed at 1. rewrite Hp, IH1, IH2.
  split; reflexivity.
Qed.

(** X17. On a non-empty layer of POLYGON features with acceptable outer
    rings whose polygons (the closed outer rings) are all valid and not
    empty, nothing is buffered, and the union receives exactly the
    polygons of the features, as built and in layer order; the hull is
    taken of that union. *)
Theorem X17_valid_polygons_reach_union (input_kml : string)
    (ds : DataSource) (layer : list Feature) :
  Open input_kml = Some ds ->
  GetLayer ds = Some layer ->
  layer <> [] ->
  Forall plain_polygon layer ->
  (forall f, In f layer ->
     is_valid (feature_polygon f) = true /\
     is_empty (feature_polygon f) = false) ->
  filter is_buffer_event (trace_of (create_convex_hull input_kml)) = [] /\
  filter is_geometry_call (trace_of (create_convex_hull input_kml))
  = [CallUnaryUnion (map feature_polygon layer);
     CallConvexHull (unary_union (map feature_polygon layer))].
Proof.
  intros Ho Hl Hne Hall Hok.
  destruct (extract_polygons_from_kml input_kml) as [t r] eqn:H.
  assert (Hr : r = inr (map feature_polygon layer)).
  { pose proof (extract_run _ _ _ Ho Hl) as R. rewrite H in R.
    inversion R. rewrite (feature_loop_plain _ Hall). reflexivity. }
  subst r.
  assert (Hk : filter keep (map feature_polygon layer)
               = map feature_polygon layer).
  { apply keep_plain. intros f Hf. apply (Hok f Hf). }
  assert (Hv : Forall (fun p => is_valid p = true) (map feature_polygon layer)).
  { apply Forall_forall. intros p Hp. apply in_map_iff in Hp.
    destruct Hp as [f [<- Hf]]. apply (Hok f Hf). }
  destruct (fixed_valid _ Hv) as [Hfix Hnone].
  split.
  - rewrite (buffer_calls _ _ _ H), Hk, Hnone. reflexivity.
  - rewrite (geometry_calls _ _ _ H), Hk, Hfix.
    destruct layer as [| f layer]; [contradiction | reflexivity].
Qed.

End GeometryCalls.

(** * The entry point *)

Section EntryPoint.
Context {shapely : Shapely} {ogr : Ogr} {os : Os}.

(** X18. The entry point runs the pipeline only on a stripped path that
    exists: for a path that does not exist it prints "The specified file
    does not exist." and returns; it catches nothing, so an exception that
    leaves it is one raised by the pipeline on that path; and every writer
    call it makes is one of the pipeline on an existing path, after a
    non-empty hull was computed there. *)
Theorem X18_entry_point_guards_pipeline :
  (forall line,
     typed_line = Some line -> path_exists (strip line) = false ->
     main = ([Prompt "Enter the path to the input KML file: ";
              Ran (Print "The specified file does not exist.")], inr tt)) /\
  (forall e,
     snd main = inl (Uncaught e) ->
     exists line,
       typed_line = Some line /\ path_exists (strip line) = true /\
       result_of (create_convex_hull (strip line)) = inl e) /\
  (forall e,
     In (Ran e) (fst main) -> is_writer_event e = true ->
     exists line t polygons,
       typed_line = Some line /\ path_exists (strip line) = true /\
       In e (trace_of (create_convex_hull (strip line))) /\
       extract_polygons_from_kml (strip line) = (t, inr polygons) /\
       is_empty (hull_of polygons) = false).
Proof.
  unfold main. destruct typed_line as [line |].
  - destruct (path_exists (strip line)) eqn:Ex.
    + split; [intros l Hl; inversion Hl; subst; congruence |]. split.
      * intros e He. cbn [snd] in He. exists line.
        split; [reflexivity |]. split; [exact Ex |].
        destruct (result_of (create_convex_hull (strip line))) as [x | u];
          inversion He; reflexivity.
      * intros e Hin He. cbn [fst] in Hin.
        destruct Hin as [Hin | Hin]; [discriminate Hin |].
        apply in_map_iff in Hin. destruct Hin as [e' [Heq Hin]].
        inversion Heq; subst e'.
        pose proof (in_filter_writer _ _ Hin He) as Hf.
        pose proof (run_summary (strip line)) as S. cbv zeta in S.
        destruct S as [[Hw _] | [t [polygons [Hx [_ [Hh _]]]]]].
        { rewrite Hw in Hf. destruct Hf. }
        exists line, t, polygons. auto.
    + split; [intros l Hl _; reflexivity |]. split.
      * intros e He. discriminate He.
      * intros e Hin He. cbn in Hin.
        destruct Hin as [Hin | [Hin | []]]; [discriminate Hin |].
        inversion Hin; subst. discriminate He.
  - split; [intros l Hl; discriminate Hl |]. split.
    + intros e He. discriminate He.
    + intros e Hin He. cbn in Hin. destruct Hin as [Hin | []].
      discriminate Hin.
Qed.

End EntryPoint.

(** * The further properties at concrete inputs *)

Lemma short_ring_layer :
  Exists has_short_ring [square_feature; short_ring_feature].
Proof.
  right. left. exists (polygon_of [(0, 0, 0)%Q]). split; [reflexivity |].
  left. split; [reflexivity |]. exists (ring_of [(0, 0, 0)%Q]).
  split; [reflexivity | left; reflexivity].
Qed.

Lemma square_is_plain : plain_polygon square_feature.
Proof.
  exists (polygon_of square_points), (ring_of square_points).
  repeat split; try reflexivity. right. vm_compute. lia.
Qed.

Lemma X1_witness :
  @Open no_file "missing.kml" = None /\
  @create_convex_hull area_kernel no_file "missing.kml"
    = ([], inl (ValueError "Failed to open the KML file.")).
Proof.
  split; [reflexivity |].
  exact (proj2 (@X1_open_failure area_kernel no_file "missing.kml" eq_refl)).
Defined.

Lemma X2_witness :
  trace_of (@extract_polygons_from_kml (one_file mixed_layer true) "shapes.kml")
  = Print header_line
      :: map (fun f => Print (feature_line f)) [line_feature; square_feature]
      ++ [Print (count_line 1)].
Proof.
  exact (@X2_extraction_log (one_file mixed_layer true) "shapes.kml"
           (mkDataSource (Some mixed_layer)) mixed_layer
           [Polygon (map xy square_points) []] eq_refl eq_refl eq_refl).
Defined.

Lemma X3_witness :
  result_of (@extract_polygons_from_kml (one_file mixed_layer true) "a.kml")
  = result_of (@extract_polygons_from_kml (one_file [square_feature] true)
                 "b.kml").
Proof.
  exact (X3_other_features_ignored
           (one_file mixed_layer true) (one_file [square_feature] true)
           "a.kml" "b.kml"
           (mkDataSource (Some mixed_layer))
           (mkDataSource (Some [square_feature])) mixed_layer
           eq_refl eq_refl eq_refl eq_refl).
Defined.

Lemma X4_witness :
  List.length [Polygon (map xy square_points) []]
    = List.length (filter contributes mixed_layer) /\
  List.length [Polygon (map xy square_points) []] <= List.length mixed_layer.
Proof.
  exact (@X4_collection_size (one_file mixed_layer true) "shapes.kml"
           (mkDataSource (Some mixed_layer)) mixed_layer
           [Polygon (map xy square_points) []] eq_refl eq_refl eq_refl).
Defined.

Lemma X5_witness :
  Exists has_short_ring [square_feature; short_ring_feature] /\
  result_of (@extract_polygons_from_kml
               (one_file [square_feature; short_ring_feature] true)
               "shapes.kml")
  = inl (ValueError linearring_error).
Proof.
  split; [exact short_ring_layer |].
  exact (proj1 (@X5_extraction_fails_iff_short_ring
                  (one_file [square_feature; short_ring_feature] true)
                  "shapes.kml" _ _ eq_refl eq_refl) short_ring_layer).
Defined.

Lemma X6_witness :
  result_of (@create_convex_hull area_kernel
               (one_file [square_feature; short_ring_feature] true)
               "shapes.kml")
  = inl (ValueError linearring_error).
Proof.
  exact (proj1 (@X6_short_ring_aborts_run area_kernel
                  (one_file [square_feature; short_ring_feature] true)
                  "shapes.kml" _ _ eq_refl eq_refl short_ring_layer)).
Defined.

Lemma X7_witness :
  extract_multipolygon
    (OGRGeom "MULTIPOLYGON" []
       [polygon_of triangle_points; polygon_of []; OGRGeom "POLYGON" [] []])
    []
  = ([], inr [MultiPolygon [Polygon [(0, 0); (1, 0); (1, 1); (0, 0)]%Q []]]).
Proof.
  apply (X7_multipolygon_members "MULTIPOLYGON" []
           [polygon_of triangle_points; polygon_of [];
            OGRGeom "POLYGON" [] []] []).
  intros part ring [<- | [<- | [<- | []]]] Hr; inversion Hr; subst.
  - right. vm_compute. lia.
  - left. reflexivity.
Defined.

Lemma triangle_is_plain : plain_polygon triangle_feature.
Proof.
  exists (polygon_of triangle_points), (ring_of triangle_points).
  repeat split; try reflexivity. right. vm_compute. lia.
Qed.

Lemma X8_witness :
  Forall plain_polygon [triangle_feature; square_feature] /\
  result_of (@extract_polygons_from_kml
               (one_file [triangle_feature; square_feature] true) "shapes.kml")
  = inr [Polygon [(0, 0); (1, 0); (1, 1); (0, 0)]%Q [];
         Polygon (map xy square_points) []].
Proof.
  assert (H : Forall plain_polygon [triangle_feature; square_feature])
    by (repeat constructor; [exact triangle_is_plain | exact square_is_plain]).
  split; [exact H |].
  exact (@X8_polygons_in_layer_order
           (one_file [triangle_feature; square_feature] true) "shapes.kml"
           _ _ eq_refl eq_refl H).
Defined.

Lemma X10_witness :
  "shapes_convex_hull.kml"
  = @output_path (one_file [square_feature] true) "shapes.kml".
Proof.
  assert (Hin : In (DoCreateFeature "shapes_convex_hull.kml"
                      (OGRGeom "POLYGON" [] []))
                   (trace_of (@create_convex_hull area_kernel
                                (one_file [square_feature] true) "shapes.kml"))).
  { vm_compute. tauto. }
  exact (proj1 (@X10_feature_is_the_hull area_kernel
                  (one_file [square_feature] true) "shapes.kml" _ _ Hin)).
Defined.

Lemma X12_witness :
  result_of (@create_convex_hull area_kernel (read_only [square_feature])
               "shapes.kml") = inl AttributeError /\
  In (DoCreateDataSource "shapes_convex_hull.kml")
     (trace_of (@create_convex_hull area_kernel (read_only [square_feature])
                  "shapes.kml")).
Proof.
  split; [reflexivity |].
  destruct (@X12_exceptions_by_stage area_kernel (read_only [square_feature])
              "shapes.kml" AttributeError eq_refl) as [[_ [H _]] | [H _]].
  - exact H.
  - exfalso. apply H. reflexivity.
Defined.

Lemma X15_witness :
  Forall (fun g => @is_valid area_kernel g = true) [Polygon [] []].
Proof.
  apply (@X15_union_inputs_valid area_kernel
           (one_file [collinear_feature] true) "shapes.kml").
  - intros g. cbn. destruct (area_valid g) eqn:E; [exact E | reflexivity].
  - vm_compute. tauto.
Defined.

Lemma X16_witness :
  filter is_writer_event
    (trace_of (@create_convex_hull area_kernel
                 (one_file [collinear_feature] true) "shapes.kml")) = [].
Proof.
  refine (proj2 (@X16_empty_hull_stops area_kernel
                   (one_file [collinear_feature] true) "shapes.kml"
                   _ [Polygon (close_ring (map xy collinear_points)) []]
                   eq_refl _ eq_refl)).
  discriminate.
Defined.

Lemma X17_witness :
  filter is_geometry_call
    (trace_of (@create_convex_hull area_kernel
                 (one_file [triangle_feature; square_feature] true)
                 "shapes.kml"))
  = [CallUnaryUnion [Polygon [(0, 0); (1, 0); (1, 1); (0, 0)]%Q [];
                     Polygon (map xy square_points) []];
     CallConvexHull (@unary_union area_kernel
                       [Polygon [(0, 0); (1, 0); (1, 1); (0, 0)]%Q [];
                        Polygon (map xy square_points) []])].
Proof.
  refine (proj2 (@X17_valid_polygons_reach_union area_kernel
                   (one_file [triangle_feature; square_feature] true)
                   "shapes.kml"
                   _ [triangle_feature; square_feature] eq_refl eq_refl _ _ _)).
  - discriminate.
  - repeat constructor; [exact triangle_is_plain | exact square_is_plain].
  - intros f [<- | [<- | []]]; split; reflexivity.
Defined.

Lemma X18_witness :
  exists line t polygons,
    @typed_line (typing "shapes.kml") = Some line /\
    @path_exists (typing "shapes.kml") (@strip (typing "shapes.kml") line)
      = true /\
    In (DoCreateDataSource "shapes_convex_hull.kml")
       (trace_of (@create_convex_hull area_kernel
                    (one_file [square_feature] true)
                    (@strip (typing "shapes.kml") line))) /\
    @extract_polygons_from_kml (one_file [square_feature] true)
       (@strip (typing "shapes.kml") line) = (t, inr polygons) /\
    is_empty (@hull_of area_kernel polygons) = false.
Proof.
  refine (proj2 (proj2 (@X18_entry_point_guards_pipeline area_kernel
                          (one_file [square_feature] true)
                          (typing "shapes.kml")))
            (DoCreateDataSource "shapes_convex_hull.kml") _ eq_refl).
  vm_compute. tauto.
Defined.

(** * Order of the union's arguments *)




Section UnionOrder.
Context {shapely : Shapely}.



End UnionOrder.

(** ** The small kernel satisfies the reading of unions *)




